(** * Budget enforcement of the finance-tracker backend

    A shallow embedding of the request handlers of [src/index.js]
    ([/check-transaction], [/get-category], [/set-category-limit]) over the
    Mongoose models of [src/db.js], and the properties the specification
    states about them.

    Conventions of the embedding.
    - A JavaScript number is an integer [Z] (a whole amount of the currency)
      or [NaN]; fractions and infinities are not represented.  A double
      holds every integer up to 2^53 in magnitude and adds, subtracts and
      compares such integers exactly as long as the results stay within
      that bound; the general statements about the sums of
      [/check-transaction] carry this bound as the hypothesis
      [exact_range].
    - A [Date] is its time value, the milliseconds since the epoch; the
      calendar accessors are those of a process running in UTC.
    - A collection is the list of its documents in natural (insertion) order.
    - A handler is a function from the store, the authenticated [userId],
      the request body and the clock readings it takes to the response and
      the store it leaves. *)

From Stdlib Require Import ZArith List String Ascii Bool Lia DecimalString.
Import ListNotations.

Local Open Scope string_scope.
Local Open Scope list_scope.
Local Open Scope Z_scope.

(** ** JavaScript values *)

Module JS.

(** The result of a numeric coercion. *)
Inductive num : Type :=
| Num (z : Z)
| NaN.

(** A scalar that a JSON body can carry at some key, [VUndefined] standing
    for a key that is not there. *)
Inductive value : Type :=
| VUndefined
| VNull
| VBool (b : bool)
| VNum (z : Z)
| VStr (s : string).

(** [typeof v === "string"]. *)
Definition typeof_string (v : value) : bool :=
  match v with
  | VStr _ => true
  | _ => false
  end.

(** [isNaN(n)]. *)
Definition isNaN (n : num) : bool :=
  match n with
  | NaN => true
  | Num _ => false
  end.

(** [n < 0]; a comparison with [NaN] is false. *)
Definition ltz (n : num) : bool :=
  match n with
  | Num z => z <? 0
  | NaN => false
  end.

(** [!s] for a text property that is a string or missing: the empty
    string and [undefined] are falsy. *)
Definition truthy_str (v : option string) : bool :=
  match v with
  | Some s => negb (String.eqb s "")
  | None => false
  end.

(** [!n] for a numeric property that is a number or missing: [0] and
    [undefined] are falsy. *)
Definition truthy_num (v : option Z) : bool :=
  match v with
  | Some z => negb (z =? 0)
  | None => false
  end.

(** [!b] for a boolean property that may be missing. *)
Definition truthy_bool (v : option bool) : bool :=
  match v with
  | Some b => b
  | None => false
  end.

Section Coercion.

(** The builtin conversion of a string to a number ([StringToNumber] of
    the language definition), taken as given. *)
Variable StringToNumber : string -> num.

(** [Number(v)]. *)
Definition Number (v : value) : num :=
  match v with
  | VUndefined => NaN
  | VNull => Num 0
  | VBool true => Num 1
  | VBool false => Num 0
  | VNum z => Num z
  | VStr s => StringToNumber s
  end.

End Coercion.

(** A reading of unsigned decimal literals, on which every conforming
    [StringToNumber] agrees; anything else is sent to [NaN] here.  It
    instantiates the builtin in the worked examples. *)
Definition digit (c : Ascii.ascii) : option Z :=
  let n := Z.of_nat (Ascii.nat_of_ascii c) in
  if (48 <=? n) && (n <=? 57) then Some (n - 48) else None.

Fixpoint digits (acc : Z) (s : string) : num :=
  match s with
  | EmptyString => Num acc
  | String c s' =>
      match digit c with
      | Some d => digits (10 * acc + d) s'
      | None => NaN
      end
  end.

Definition decimal (s : string) : num :=
  match s with
  | EmptyString => Num 0
  | _ => digits 0 s
  end.

End JS.

(** ** Dates *)

Module Date.

(** The time value of a [Date]: milliseconds since 1970-01-01T00:00Z. *)
Definition t : Type := Z.

Definition msPerDay : Z := 86400000.

(** Day number of the civil date [y]-[m]-[d], [m] counted from 1. *)
Definition days_from_civil (y m d : Z) : Z :=
  let y' := if m <=? 2 then y - 1 else y in
  let era := y' / 400 in
  let yoe := y' - era * 400 in
  let mp := if 2 <? m then m - 3 else m + 9 in
  let doy := (153 * mp + 2) / 5 + d - 1 in
  let doe := yoe * 365 + yoe / 4 - yoe / 100 + doy in
  era * 146097 + doe - 719468.

(** Year and month (counted from 1) of a day number. *)
Definition civil_from_days (z : Z) : Z * Z :=
  let z' := z + 719468 in
  let era := z' / 146097 in
  let doe := z' - era * 146097 in
  let yoe := (doe - doe / 1460 + doe / 36524 - doe / 146096) / 365 in
  let doy := doe - (365 * yoe + yoe / 4 - yoe / 100) in
  let mp := (5 * doy + 2) / 153 in
  let m := if mp <? 10 then mp + 3 else mp - 9 in
  let y := yoe + era * 400 in
  (if m <=? 2 then y + 1 else y, m).

(** [d.getFullYear()]. *)
Definition getFullYear (d : t) : Z := fst (civil_from_days (d / msPerDay)).

(** [d.getMonth()], counted from 0. *)
Definition getMonth (d : t) : Z := snd (civil_from_days (d / msPerDay)) - 1.

(** [new Date(year, month, day)]: midnight of that day, [month] counted
    from 0 and carried into the year when out of range. *)
Definition make (year month day : Z) : t :=
  (days_from_civil (year + month / 12) (month mod 12 + 1) 1 + (day - 1))
  * msPerDay.

End Date.

(** ** The models of [db.js] *)

Inductive SchemaType : Type :=
| SString
| SNumber
| SDate.

(** A schema: each declared path with its type and its [required] mark. *)
Definition Schema : Type := list (string * SchemaType * bool).

(** [TransactionSchema], db.js:18-23. *)
Definition TransactionSchema : Schema :=
  [ ("userId", SString, true);
    ("amount", SNumber, true);
    ("category", SString, true);
    ("date", SDate, false) ].

(** [CategoryLimitSchema], db.js:25-29. *)
Definition CategoryLimitSchema : Schema :=
  [ ("userId", SString, true);
    ("category", SString, true);
    ("limit", SNumber, true) ].

Definition declares (schema : Schema) (path : string) : bool :=
  existsb (fun e => String.eqb (fst (fst e)) path) schema.

(** A model built on a schema keeps, of the object it is constructed from,
    the declared paths only (neither schema of db.js turns [strict] off). *)
Definition strict {A : Type} (schema : Schema) (path : string) (v : A)
  : option A :=
  if declares schema path then Some v else None.

(** A document of the transactions collection.  The first four paths are
    the declared ones; [payee] and [exceededLimit] are paths index.js names
    and the schema does not declare, which a document may or may not
    carry. *)
Module Txn.
Record t : Type := mk {
  userId : string;
  amount : Z;
  category : string;
  date : Date.t;
  payee : option string;
  exceededLimit : option bool
}.

(** The truth value of [txn.exceededLimit]; a missing path reads
    [undefined], which is falsy. *)
Definition flagged (d : t) : bool :=
  match exceededLimit d with
  | Some b => b
  | None => false
  end.
End Txn.

(** A document of the category-limits collection. *)
Module Limit.
Record t : Type := mk {
  userId : string;
  category : string;
  limit : Z
}.
End Limit.

Record Store : Type := mkStore {
  transactions : list Txn.t;
  limits : list Limit.t
}.

(** The object literal handed to [new TransactionModel(...)],
    index.js:235-242. *)
Record TransactionInit : Type := mkInit {
  init_userId : string;
  init_category : string;
  init_amount : Z;
  init_payee : string;
  init_date : Date.t;
  init_exceededLimit : bool
}.

(** [new TransactionModel(o)]. *)
Definition TransactionModel (o : TransactionInit) : Txn.t :=
  {| Txn.userId := init_userId o;
     Txn.amount := init_amount o;
     Txn.category := init_category o;
     Txn.date := init_date o;
     Txn.payee := strict TransactionSchema "payee" (init_payee o);
     Txn.exceededLimit :=
       strict TransactionSchema "exceededLimit" (init_exceededLimit o) |}.

Definition required (schema : Schema) (path : string) : bool :=
  existsb (fun e => String.eqb (fst (fst e)) path && snd e) schema.

(** The [required] validator of a string path: where the schema marks the
    path required, the string must be non-empty. *)
Definition checkRequired (schema : Schema) (path value : string) : bool :=
  negb (required schema path) || negb (String.eqb value "").

(** The validation that runs on [save()].  The string paths are the ones
    that can fail it; the number and the date are always there. *)
Definition validateSync (d : Txn.t) : bool :=
  checkRequired TransactionSchema "userId" (Txn.userId d)
  && checkRequired TransactionSchema "category" (Txn.category d).

(** [doc.save()]: the document is appended, or the call throws. *)
Definition save (d : Txn.t) (st : Store) : option Store :=
  if validateSync d
  then Some {| transactions := transactions st ++ [d]; limits := limits st |}
  else None.

(** [TransactionModel.find({ userId, category, date: { $gte: since } })]. *)
Definition find_since (st : Store) (userId category : string) (since : Date.t)
  : list Txn.t :=
  filter (fun d => String.eqb (Txn.userId d) userId
                   && String.eqb (Txn.category d) category
                   && (since <=? Txn.date d))
         (transactions st).

(** [CategoryLimitModel.findOne({ userId, category })]. *)
Definition findOne_limit (st : Store) (userId category : string)
  : option Limit.t :=
  find (fun l => String.eqb (Limit.userId l) userId
                 && String.eqb (Limit.category l) category)
       (limits st).

(** [CategoryLimitModel.findOneAndUpdate({ userId, category },
    { userId, category, limit }, { upsert: true, new: true })]: the first
    matching document is rewritten, and one is inserted when none matches.
    Update validators are off by default, so nothing is rejected here. *)
Fixpoint upsert (ls : list Limit.t) (userId category : string) (limit : Z)
  : list Limit.t :=
  match ls with
  | [] => [ Limit.mk userId category limit ]
  | l :: ls' =>
      if String.eqb (Limit.userId l) userId
         && String.eqb (Limit.category l) category
      then Limit.mk userId category limit :: ls'
      else l :: upsert ls' userId category limit
  end.

Definition findOneAndUpdate (st : Store) (userId category : string) (limit : Z)
  : Store :=
  {| transactions := transactions st;
     limits := upsert (limits st) userId category limit |}.

(** ** [POST /check-transaction], index.js:198-254 *)

Module Check.

(** The request body: the five properties the handler destructures, each
    of the type the client sends it with or missing, and whatever other
    keys the body carries. *)
Record Body : Type := mkBody {
  category : option string;
  amount : option Z;
  redirectUrl : option string;
  payee : option string;
  bypassLimitCheck : option bool;
  others : list (string * JS.value)
}.

(** [limitDetails], index.js:218-223. *)
Record LimitDetails : Type := mkDetails {
  limit : Z;
  spent : Z;
  remaining : Z;
  exceedAmount : Z
}.

(** The four answers of the handler. *)
Inductive Response : Type :=
| Status400
    (* { message: "Missing required fields" } *)
| Status411 (left : Z) (details : LimitDetails)
    (* { message: `Limit exceeded! You have ... left.`, details } *)
| Status200 (despite : bool) (redirect : string)
    (* { message: despite ? "Transaction saved despite exceeding limit"
                          : "Transaction successful", redirect } *)
| Status500.
    (* { message: "Internal server error", error } *)

(** The guard of index.js:203. *)
Definition missing_fields (b : Body) : bool :=
  negb (JS.truthy_str (category b))
  || negb (JS.truthy_num (amount b))
  || negb (JS.truthy_str (redirectUrl b))
  || negb (JS.truthy_str (payee b)).

(** [firstDayOfMonth], index.js:211: the year and the month come from two
    readings of the clock. *)
Definition firstDayOfMonth (at_year at_month : Date.t) : Date.t :=
  Date.make (Date.getFullYear at_year) (Date.getMonth at_month) 1.

(** [totalSpent], index.js:212-213. *)
Definition totalSpent (st : Store) (userId category : string)
           (since : Date.t) : Z :=
  fold_left (fun sum txn => sum + Txn.amount txn)
            (find_since st userId category since) 0.

(** The limit test of index.js:216-223.  [Some] is [exceedsLimit = true]
    with the [limitDetails] then filled in, [None] is [exceedsLimit =
    false] with [limitDetails] left empty. *)
Definition limit_check (categoryLimit : option Limit.t)
           (totalSpent amount : Z) : option LimitDetails :=
  match categoryLimit with
  | Some cl =>
      if totalSpent + amount >? Limit.limit cl
      then Some {| limit := Limit.limit cl;
                   spent := totalSpent;
                   remaining := Limit.limit cl - totalSpent;
                   exceedAmount :=
                     amount - (Limit.limit cl - totalSpent) |}
      else None
  | None => None
  end.

(** index.js:235-249: the document is built and saved, and the answer
    names the override when there was one; a throwing [save] lands in the
    [catch] of index.js:250. *)
Definition persist (st : Store) (userId category : string) (amount : Z)
           (redirectUrl payee : string) (bypassLimitCheck : option bool)
           (exceedsLimit : bool) (at_save : Date.t) : Response * Store :=
  match save (TransactionModel
                (mkInit userId category amount payee at_save exceedsLimit))
             st with
  | Some st' =>
      (Status200 (exceedsLimit && JS.truthy_bool bypassLimitCheck)
                 redirectUrl, st')
  | None => (Status500, st)
  end.

(** index.js:214-249, once [totalSpent] is known; [at_save] is the clock
    reading of index.js:240. *)
Definition decision (st : Store) (userId category : string) (amount : Z)
           (redirectUrl payee : string) (bypassLimitCheck : option bool)
           (totalSpent : Z) (at_save : Date.t) : Response * Store :=
  match limit_check (findOne_limit st userId category) totalSpent amount with
  | Some limitDetails =>
      if negb (JS.truthy_bool bypassLimitCheck)
      then (Status411 (limit limitDetails - spent limitDetails)
                      limitDetails, st)
      else persist st userId category amount redirectUrl payee
                   bypassLimitCheck true at_save
  | None =>
      persist st userId category amount redirectUrl payee
              bypassLimitCheck false at_save
  end.

(** The handler.  [at_year] and [at_month] are the clock readings of
    index.js:211 and [at_save] the one of index.js:240. *)
Definition check_transaction (st : Store) (userId : string) (b : Body)
           (at_year at_month at_save : Date.t) : Response * Store :=
  if missing_fields b then (Status400, st)
  else
    match category b, amount b, redirectUrl b, payee b with
    | Some category, Some amount, Some redirectUrl, Some payee =>
        let since := firstDayOfMonth at_year at_month in
        decision st userId category amount redirectUrl payee
              (bypassLimitCheck b)
              (totalSpent st userId category since) at_save
    | _, _, _, _ => (Status400, st) (* excluded by the guard *)
    end.

(** The outcome of the admission decision a response stands for. *)
Inductive Outcome : Type :=
| Admit
| RejectOverLimit (remaining : Z)
| AdmitOverride
| ValidationError
| Failure.

Definition outcome (r : Response) : Outcome :=
  match r with
  | Status400 => ValidationError
  | Status411 _ details => RejectOverLimit (remaining details)
  | Status200 false _ => Admit
  | Status200 true _ => AdmitOverride
  | Status500 => Failure
  end.

End Check.

(** ** [POST /check-transaction] on a body of any scalars *)

(** The handler again, for a body in which the amount and the bypass flag
    are any scalar a JSON body can carry, not only a number and a boolean.
    The three texts stay texts, and numbers stay whole numbers. *)
Module Loose.

Record Body : Type := mkBody {
  category : option string;
  amount : JS.value;
  redirectUrl : option string;
  payee : option string;
  bypassLimitCheck : JS.value;
  others : list (string * JS.value)
}.

(** [limitDetails], index.js:218-223; [exceedAmount] is [NaN] when the
    amount is one. *)
Record LimitDetails : Type := mkDetails {
  limit : Z;
  spent : Z;
  remaining : Z;
  exceedAmount : JS.num
}.

Inductive Response : Type :=
| Status400
| Status411 (left : Z) (details : LimitDetails)
| Status200 (despite : bool) (redirect : string)
| Status500.

(** [!!v]. *)
Definition truthy (v : JS.value) : bool :=
  match v with
  | JS.VUndefined => false
  | JS.VNull => false
  | JS.VBool b => b
  | JS.VNum z => negb (z =? 0)
  | JS.VStr s => negb (String.eqb s "")
  end.

(** The guard of index.js:203. *)
Definition missing_fields (b : Body) : bool :=
  negb (JS.truthy_str (category b))
  || negb (truthy (amount b))
  || negb (JS.truthy_str (redirectUrl b))
  || negb (JS.truthy_str (payee b)).

(** The text of a whole number: its decimal digits, after a minus sign
    when it is negative. *)
Definition NumberToString (z : Z) : string :=
  NilZero.string_of_int (Z.to_int z).

(** The value of [totalSpent + amount]: a number, or a text when the
    amount is a text. *)
Inductive Sum : Type :=
| SumNum (n : JS.num)
| SumStr (s : string).

Section Handler.

Variable StringToNumber : string -> JS.num.

(** [totalSpent + amount], index.js:216: a text amount is appended to the
    text of the total, any other amount is coerced to a number and
    added. *)
Definition plus (totalSpent : Z) (amount : JS.value) : Sum :=
  match amount with
  | JS.VStr s => SumStr (String.append (NumberToString totalSpent) s)
  | v =>
      SumNum (match JS.Number StringToNumber v with
              | JS.Num z => JS.Num (totalSpent + z)
              | JS.NaN => JS.NaN
              end)
  end.

(** [x > limit] for such a value: a text is coerced to a number, and a
    comparison with [NaN] is false. *)
Definition gt (x : Sum) (limit : Z) : bool :=
  match x with
  | SumNum (JS.Num z) => z >? limit
  | SumNum JS.NaN => false
  | SumStr s =>
      match StringToNumber s with
      | JS.Num z => z >? limit
      | JS.NaN => false
      end
  end.

(** [amount - (limit - totalSpent)], index.js:222. *)
Definition minus (amount : JS.value) (remaining : Z) : JS.num :=
  match JS.Number StringToNumber amount with
  | JS.Num z => JS.Num (z - remaining)
  | JS.NaN => JS.NaN
  end.

(** The cast of the [amount] path when the document is built: a number
    is kept, a text or a boolean goes through [Number], and what does not
    come out a number fails the cast, which [save()] reports by
    throwing. *)
Definition castNumber (amount : JS.value) : option Z :=
  match amount with
  | JS.VNum z => Some z
  | JS.VStr s =>
      match StringToNumber s with
      | JS.Num z => Some z
      | JS.NaN => None
      end
  | JS.VBool b => Some (if b then 1 else 0)
  | JS.VNull => None
  | JS.VUndefined => None
  end.

(** index.js:235-249. *)
Definition persist (st : Store) (userId category : string)
           (amount : JS.value) (redirectUrl payee : string)
           (bypassLimitCheck : JS.value) (exceedsLimit : bool)
           (at_save : Date.t) : Response * Store :=
  match castNumber amount with
  | Some a =>
      match save (TransactionModel
                    (mkInit userId category a payee at_save exceedsLimit))
                 st with
      | Some st' =>
          (Status200 (exceedsLimit && truthy bypassLimitCheck)
                     redirectUrl, st')
      | None => (Status500, st)
      end
  | None => (Status500, st)
  end.

(** The handler, index.js:198-254. *)
Definition check_transaction (st : Store) (userId : string) (b : Body)
           (at_year at_month at_save : Date.t) : Response * Store :=
  if missing_fields b then (Status400, st)
  else
    match category b, redirectUrl b, payee b with
    | Some category, Some redirectUrl, Some payee =>
        let since := Check.firstDayOfMonth at_year at_month in
        let totalSpent := Check.totalSpent st userId category since in
        match findOne_limit st userId category with
        | Some categoryLimit =>
            if gt (plus totalSpent (amount b)) (Limit.limit categoryLimit)
            then
              let remaining := Limit.limit categoryLimit - totalSpent in
              if negb (truthy (bypassLimitCheck b))
              then (Status411
                      remaining
                      {| limit := Limit.limit categoryLimit;
                         spent := totalSpent;
                         remaining := remaining;
                         exceedAmount := minus (amount b) remaining |},
                    st)
              else persist st userId category (amount b) redirectUrl payee
                           (bypassLimitCheck b) true at_save
            else persist st userId category (amount b) redirectUrl payee
                         (bypassLimitCheck b) false at_save
        | None =>
            persist st userId category (amount b) redirectUrl payee
                    (bypassLimitCheck b) false at_save
        end
    | _, _, _ => (Status400, st) (* excluded by the guard *)
    end.

End Handler.

(** A body whose amount is a number or missing and whose bypass flag is a
    boolean or missing, as a body of scalars; and an answer of the handler
    on such bodies as an answer here. *)
Definition of_body (b : Check.Body) : Body :=
  {| category := Check.category b;
     amount := match Check.amount b with
               | Some z => JS.VNum z
               | None => JS.VUndefined
               end;
     redirectUrl := Check.redirectUrl b;
     payee := Check.payee b;
     bypassLimitCheck := match Check.bypassLimitCheck b with
                         | Some x => JS.VBool x
                         | None => JS.VUndefined
                         end;
     others := Check.others b |}.

Definition of_response (r : Check.Response) : Response :=
  match r with
  | Check.Status400 => Status400
  | Check.Status411 l d =>
      Status411 l
                {| limit := Check.limit d;
                   spent := Check.spent d;
                   remaining := Check.remaining d;
                   exceedAmount := JS.Num (Check.exceedAmount d) |}
  | Check.Status200 despite redirect => Status200 despite redirect
  | Check.Status500 => Status500
  end.

End Loose.

(** ** [POST /get-category], index.js:94-118 *)

Module Infer.

Record Body : Type := mkBody {
  payee : option string
}.

Inductive Response : Type :=
| Status400
    (* { error: "Payee is required" } *)
| Status200 (category : JS.value).
    (* { category } *)

Section Sorted.

(** The [createdAt] path the collection holds for a document, missing for
    a document that carries none.  The schema declares no such path and
    no [timestamps] option, so the documents the model writes carry none;
    a collection can hold documents that do. *)
Variable createdAt : Txn.t -> option Date.t.

(** Order of two sort keys, a missing key below every date. *)
Definition key_lt (a b : option Date.t) : bool :=
  match a, b with
  | None, Some _ => true
  | Some x, Some y => x <? y
  | _, None => false
  end.

(** [.sort({ createdAt: -1 })]: descending on [createdAt], documents
    with equal keys left in the order they come in. *)
Fixpoint insert_desc (d : Txn.t) (l : list Txn.t) : list Txn.t :=
  match l with
  | [] => [d]
  | x :: l' =>
      if key_lt (createdAt d) (createdAt x)
      then x :: insert_desc d l'
      else d :: l
  end.

Definition sort_createdAt_desc (l : list Txn.t) : list Txn.t :=
  fold_right insert_desc [] l.

(** [TransactionModel.findOne(filter).sort({ createdAt: -1 })]. *)
Definition findOne_sorted (st : Store) (filter : Txn.t -> bool)
  : option Txn.t :=
  hd_error (sort_createdAt_desc (List.filter filter (transactions st))).

(** The filter [{ payee }], resp. [{ payee, userId }], which reaches the
    collection as written: a document without a [payee] path matches no
    payee. *)
Definition has_payee (payee : string) (d : Txn.t) : bool :=
  match Txn.payee d with
  | Some p => String.eqb p payee
  | None => false
  end.

Definition has_payee_user (payee userId : string) (d : Txn.t) : bool :=
  has_payee payee d && String.eqb (Txn.userId d) userId.

Definition get_category (st : Store) (userId : string) (b : Body)
  : Response :=
  if negb (JS.truthy_str (payee b)) then Status400
  else
    match payee b with
    | Some payee =>
        match findOne_sorted st (has_payee_user payee userId) with
        | Some userTransaction =>
            Status200 (JS.VStr (Txn.category userTransaction))
        | None =>
            match findOne_sorted st (has_payee payee) with
            | Some globalTransaction =>
                Status200 (JS.VStr (Txn.category globalTransaction))
            | None => Status200 JS.VNull
            end
        end
    | None => Status400 (* excluded by the guard *)
    end.

End Sorted.

End Infer.

(** ** [POST /set-category-limit], index.js:120-148 *)

Module SetLimit.

(** An element of [limits], as the loop destructures it. *)
Record Entry : Type := mkEntry {
  category : JS.value;
  limit : JS.value
}.

(** The request body; [None] is a [limits] that is not an array. *)
Record Body : Type := mkBody {
  limits : option (list Entry)
}.

Inductive Response : Type :=
| InvalidFormat
    (* 400 { message: "Invalid request format. ..." } *)
| InvalidEntry
    (* 400 { message: "Invalid category or limit value." } *)
| Updated.
    (* 200 { message: "Category limits updated successfully." } *)

Section Handler.

Variable StringToNumber : string -> JS.num.

(** The test of index.js:132. *)
Definition rejected (e : Entry) : bool :=
  negb (JS.typeof_string (category e))
  || JS.isNaN (JS.Number StringToNumber (limit e))
  || JS.ltz (JS.Number StringToNumber (limit e)).

(** The update of index.js:136-140 for an entry that passed the test:
    the category is then a string and the coerced limit a number. *)
Definition apply_entry (st : Store) (userId : string) (e : Entry)
  : Store :=
  match category e, JS.Number StringToNumber (limit e) with
  | JS.VStr c, JS.Num z => findOneAndUpdate st userId c z
  | _, _ => st (* excluded by the test *)
  end.

(** The loop of index.js:131-141. *)
Fixpoint apply_entries (st : Store) (userId : string) (es : list Entry)
  : Response * Store :=
  match es with
  | [] => (Updated, st)
  | e :: es' =>
      if rejected e then (InvalidEntry, st)
      else apply_entries (apply_entry st userId e) userId es'
  end.

Definition set_category_limit (st : Store) (userId : string) (b : Body)
  : Response * Store :=
  match limits b with
  | None => (InvalidFormat, st)
  | Some [] => (InvalidFormat, st)
  | Some es => apply_entries st userId es
  end.

End Handler.

End SetLimit.

(** ** [POST /set-category-limit] on an array of any elements *)

(** The handler again, for a [limits] array whose elements need not be
    objects.  The destructuring of index.js:131 throws at a [null]
    element, which the [catch] of index.js:144 answers with 500; at any
    other element that is no object it reads two missing properties, as
    it does of an object that has neither. *)
Module Batch.

Inductive Element : Type :=
| Object (e : SetLimit.Entry)
| Null.

Record Body : Type := mkBody {
  limits : option (list Element)
}.

Inductive Response : Type :=
| InvalidFormat
    (* 400 { message: "Invalid request format. ..." } *)
| InvalidEntry
    (* 400 { message: "Invalid category or limit value." } *)
| Updated
    (* 200 { message: "Category limits updated successfully." } *)
| ServerError.
    (* 500 { message: "Internal server error." } *)

Section Handler.

Variable StringToNumber : string -> JS.num.

(** The loop of index.js:131-141. *)
Fixpoint apply_elements (st : Store) (userId : string) (es : list Element)
  : Response * Store :=
  match es with
  | [] => (Updated, st)
  | Null :: _ => (ServerError, st)
  | Object e :: es' =>
      if SetLimit.rejected StringToNumber e then (InvalidEntry, st)
      else apply_elements (SetLimit.apply_entry StringToNumber st userId e)
                          userId es'
  end.

Definition set_category_limit (st : Store) (userId : string) (b : Body)
  : Response * Store :=
  match limits b with
  | None => (InvalidFormat, st)
  | Some [] => (InvalidFormat, st)
  | Some es => apply_elements st userId es
  end.

End Handler.

(** An array of objects as an array of elements, and an answer of the
    handler on such arrays as an answer here. *)
Definition of_body (b : SetLimit.Body) : Body :=
  {| limits := option_map (map Object) (SetLimit.limits b) |}.

Definition of_response (r : SetLimit.Response) : Response :=
  match r with
  | SetLimit.InvalidFormat => InvalidFormat
  | SetLimit.InvalidEntry => InvalidEntry
  | SetLimit.Updated => Updated
  end.

End Batch.

(** ** The earlier [POST /check-transaction], checklimit.js:115-147 *)

Module Earlier.

(** [lastDayOfMonth], checklimit.js:126: day 0 of the next month, that is
    midnight at the start of the last day of this one. *)
Definition lastDayOfMonth (now : Date.t) : Date.t :=
  Date.make (Date.getFullYear now) (Date.getMonth now + 1) 0.

(** [TransactionModel.find({ userId, category,
    date: { $gte: firstDayOfMonth, $lte: lastDayOfMonth } })]. *)
Definition find_between (st : Store) (userId category : string)
           (first last : Date.t) : list Txn.t :=
  filter (fun d => String.eqb (Txn.userId d) userId
                   && String.eqb (Txn.category d) category
                   && (first <=? Txn.date d)
                   && (Txn.date d <=? last))
         (transactions st).

(** [totalSpent], checklimit.js:128-134, with one reading of the clock. *)
Definition totalSpent (st : Store) (userId category : string)
           (now : Date.t) : Z :=
  fold_left (fun sum txn => sum + Txn.amount txn)
            (find_between st userId category
               (Date.make (Date.getFullYear now) (Date.getMonth now) 1)
               (lastDayOfMonth now))
            0.

End Earlier.

(** ** [GET /get-category-limits], index.js:84-92 *)

(** [CategoryLimitModel.find({ userId })], answered as it is. *)
Definition get_category_limits (st : Store) (userId : string)
  : list Limit.t :=
  filter (fun l => String.eqb (Limit.userId l) userId) (limits st).

(** ** [GET /get-analytics], index.js:150-196 *)

Module Analytics.

(** The query string: [month] and [year], each missing or a numeral, given
    as the integer [parseInt] reads from it. *)
Record Query : Type := mkQuery {
  month : option Z;
  year : option Z
}.

(** An element of the [categorySummary] that is answered. *)
Record Row : Type := mkRow {
  category : string;
  limit : Z;
  spent : Z
}.

Inductive Response : Type :=
| Status200 (total : Z) (transactions : list Txn.t)
            (categorySummary : list Row)
    (* { success: true, total, transactions, categorySummary } *)
| Status500.
    (* { success: false, message: "Internal Server Error" } *)

(** The [Date] constructor reads a year from 0 to 99 as 1900 + year. *)
Definition fullYear (y : Z) : Z :=
  if (0 <=? y) && (y <=? 99) then 1900 + y else y.

(** [new Date(year, month, day)] for a year that comes from the query. *)
Definition newDate (year month day : Z) : Date.t :=
  Date.make (fullYear year) month day.

(** A time value stands for a date within 8.64e15 ms of the epoch; beyond
    it the [Date] is invalid. *)
Definition maxTime : Z := 8640000000000000.

Definition isValid (t : Date.t) : bool :=
  (- maxTime <=? t) && (t <=? maxTime).

(** [TransactionModel.find({ userId,
    date: { $gte: firstDay, $lte: lastDay } })]. *)
Definition find_window (st : Store) (userId : string)
           (firstDay lastDay : Date.t) : list Txn.t :=
  filter (fun d => String.eqb (Txn.userId d) userId
                   && (firstDay <=? Txn.date d)
                   && (Txn.date d <=? lastDay))
         (transactions st).

(** The local object [categorySummary] of index.js:169: its own
    properties, in the order they were created. *)
Definition Summary : Type := list (string * Z).

Fixpoint own (o : Summary) (k : string) : option Z :=
  match o with
  | [] => None
  | (k', v) :: o' => if String.eqb k' k then Some v else own o' k
  end.

(** [o[k] = v]. *)
Fixpoint set (o : Summary) (k : string) (v : Z) : Summary :=
  match o with
  | [] => [(k, v)]
  | (k', v') :: o' =>
      if String.eqb k' k then (k, v) :: o' else (k', v') :: set o' k v
  end.

(** The names every object inherits: [o[k]] is truthy and is no number
    for these, own property or not. *)
Definition inherited (k : string) : bool :=
  existsb (String.eqb k)
          [ "constructor"; "__proto__"; "hasOwnProperty"; "isPrototypeOf";
            "propertyIsEnumerable"; "toLocaleString"; "toString"; "valueOf";
            "__defineGetter__"; "__defineSetter__"; "__lookupGetter__";
            "__lookupSetter__" ].

(** [!o[k]], for a name that is not inherited: a missing property and 0
    are falsy. *)
Definition falsy (o : Summary) (k : string) : bool :=
  match own o k with
  | Some v => v =? 0
  | None => true
  end.

(** [o[k]] read as a number once the property is there. *)
Definition get (o : Summary) (k : string) : Z :=
  match own o k with
  | Some v => v
  | None => 0
  end.

(** The body of the [forEach] of index.js:172-178, for a category that is
    not an inherited name. *)
Definition tally (o : Summary) (txn : Txn.t) : Summary :=
  let k := Txn.category txn in
  let o1 := if falsy o k then set o k 0 else o in
  set o1 k (get o1 k + Txn.amount txn).

(** [categorySummary[limit.category] || 0]. *)
Definition spent_of (o : Summary) (k : string) : Z :=
  if falsy o k then 0 else get o k.

(** The handler; [at_month] and [at_year] are the clock readings of
    index.js:156-157, taken when the query leaves the value out.  The
    result is [None] when a category that is summed or looked up is an
    inherited name: the summary then holds text where a number is
    expected, which the embedding does not represent. *)
Definition get_analytics (st : Store) (userId : string) (q : Query)
           (at_month at_year : Date.t) : option Response :=
  let targetMonth :=
    match month q with
    | Some m => m
    | None => Date.getMonth at_month
    end in
  let targetYear :=
    match year q with
    | Some y => y
    | None => Date.getFullYear at_year
    end in
  let firstDay := newDate targetYear targetMonth 1 in
  let lastDay := newDate targetYear (targetMonth + 1) 0 in
  if negb (isValid firstDay && isValid lastDay)
  then Some Status500 (* the query cannot cast an invalid date *)
  else
    let transactions := find_window st userId firstDay lastDay in
    let categoryLimits := get_category_limits st userId in
    if existsb inherited (map Txn.category transactions)
       || existsb inherited (map Limit.category categoryLimits)
    then None
    else
      let categorySummary := fold_left tally transactions [] in
      let total :=
        fold_left (fun total txn => total + Txn.amount txn) transactions 0 in
      Some (Status200 total transactions
              (map (fun l =>
                      mkRow (Limit.category l) (Limit.limit l)
                            (spent_of categorySummary (Limit.category l)))
                   categoryLimits)).

End Analytics.

(** ** The earlier handlers of checklimit.js *)

(** [POST /check-transaction], checklimit.js:115-147. *)
Module EarlierCheck.

Record Body : Type := mkBody {
  category : option string;
  amount : option Z;
  redirectUrl : option string
}.

Inductive Response : Type :=
| Status400
    (* { message: "Missing required fields" } *)
| Status411 (left : Z)
    (* { message: `Limit exceeded! You have ... left.` } *)
| Status200 (redirect : string)
    (* { message: "Transaction successful", redirect } *)
| Status500.
    (* { message: "Server error" } *)

(** [new TransactionModel({ userId, category, amount, date })]. *)
Definition TransactionModel4 (userId category : string) (amount : Z)
           (date : Date.t) : Txn.t :=
  Txn.mk userId amount category date None None.

(** The handler; [now] is the clock reading of checklimit.js:124 and
    [at_save] the one of checklimit.js:141. *)
Definition check_transaction (st : Store) (userId : string) (b : Body)
           (now at_save : Date.t) : Response * Store :=
  if negb (JS.truthy_str (category b))
     || negb (JS.truthy_num (amount b))
     || negb (JS.truthy_str (redirectUrl b))
  then (Status400, st)
  else
    match category b, amount b, redirectUrl b with
    | Some category, Some amount, Some redirectUrl =>
        let totalSpent := Earlier.totalSpent st userId category now in
        let record :=
          match save (TransactionModel4 userId category amount at_save)
                     st with
          | Some st' => (Status200 redirectUrl, st')
          | None => (Status500, st)
          end in
        match findOne_limit st userId category with
        | Some categoryLimit =>
            if totalSpent + amount >? Limit.limit categoryLimit
            then (Status411 (Limit.limit categoryLimit - totalSpent), st)
            else record
        | None => record
        end
    | _, _, _ => (Status400, st) (* excluded by the guard *)
    end.

End EarlierCheck.

(** [POST /set-category-limit], checklimit.js:149-175. *)
Module EarlierLimit.

Record Body : Type := mkBody {
  category : option string;
  limit : option Z
}.

Inductive Response : Type :=
| Status400
    (* { message: "Category and limit are required" } *)
| Status200
    (* { message: "Category limit updated successfully" } *)
| Status201
    (* { message: "Category limit set successfully" } *)
| Status500.
    (* { message: "Server error" } *)

(** [existingLimit.limit = limit; existingLimit.save()], where
    [existingLimit] is the first document of (userId, category). *)
Fixpoint set_existing (ls : list Limit.t) (userId category : string)
         (limit : Z) : list Limit.t :=
  match ls with
  | [] => []
  | l :: ls' =>
      if String.eqb (Limit.userId l) userId
         && String.eqb (Limit.category l) category
      then Limit.mk (Limit.userId l) (Limit.category l) limit :: ls'
      else l :: set_existing ls' userId category limit
  end.

(** The validation that runs on [save()] of a limit document. *)
Definition validateSync (userId category : string) : bool :=
  checkRequired CategoryLimitSchema "userId" userId
  && checkRequired CategoryLimitSchema "category" category.

Definition set_category_limit (st : Store) (userId : string) (b : Body)
  : Response * Store :=
  if negb (JS.truthy_str (category b)) || negb (JS.truthy_num (limit b))
  then (Status400, st)
  else
    match category b, limit b with
    | Some category, Some limit =>
        match findOne_limit st userId category with
        | Some existingLimit =>
            if validateSync (Limit.userId existingLimit)
                            (Limit.category existingLimit)
            then (Status200,
                  {| transactions := transactions st;
                     limits := set_existing (limits st) userId category
                                            limit |})
            else (Status500, st)
        | None =>
            if validateSync userId category
            then (Status201,
                  {| transactions := transactions st;
                     limits := limits st
                               ++ [Limit.mk userId category limit] |})
            else (Status500, st)
        end
    | _, _ => (Status400, st) (* excluded by the guard *)
    end.

End EarlierLimit.

(** ** Accounts and tokens, index.js:10-82 *)

Module Auth.

(** [UserSchema], db.js:30-37. *)
Definition UserSchema : Schema :=
  [ ("userId", SString, true);
    ("password", SString, true);
    ("points", SNumber, false) ].

(** A document of the users collection. *)
Record User : Type := mkUser {
  userId : string;
  password : string;
  points : Z
}.

(** The validation that runs on [save()] of a user. *)
Definition validateSync (u : User) : bool :=
  checkRequired UserSchema "userId" (userId u)
  && checkRequired UserSchema "password" (password u).

(** [UserModel.findOne({ userId })]. *)
Definition findOne (users : list User) (id : string) : option User :=
  find (fun u => String.eqb (userId u) id) users.

(** [refreshTokens], index.js:10: a set created empty, to which no
    statement of the file adds. *)
Definition refreshTokens : list string := [].

(** [s.split(" ")]: the pieces between the spaces, [cur] being the piece
    under way. *)
Fixpoint split_from (cur s : string) : list string :=
  match s with
  | EmptyString => [cur]
  | String c s' =>
      if Ascii.eqb c " "%char
      then cur :: split_from "" s'
      else split_from (String.append cur (String c "")) s'
  end.

Definition split (s : string) : list string := split_from "" s.

Inductive Response : Type :=
| Status400
    (* signup: "User already exists"; signin: "Invalid credentials" *)
| Status201 (token : string)
    (* { message: "User registered successfully", token } *)
| Status200 (token : string)
    (* { message: "Signin successful", token } *)
| Status500.
    (* { message: "Internal server error", error } *)

(** What [authenticate] does with a request. *)
Inductive Gate : Type :=
| NoToken
    (* 401 { message: "Access denied. No token provided." } *)
| BadFormat
    (* 401 { message: "Invalid token format." } *)
| InvalidToken
    (* 400 { message: "Invalid token." } *)
| Next (userId : string).
    (* req.userId = decoded.userId; next() *)

Inductive Refreshed : Type :=
| Status403
    (* { message: "Invalid refresh token" } *)
| AccessToken (accessToken : string)
    (* { accessToken } *)
| Thrown.
    (* jwt.sign throws inside the callback *)

Section Crypto.

(** [bcrypt.hash(password, SALT_ROUNDS)], with the salt it draws. *)
Variable hash : string -> nat -> string.

(** [bcrypt.compare(password, hashed)]. *)
Variable compare : string -> string -> bool.

(** [jwt.sign({ userId }, SECRET_KEY, { expiresIn })] at a moment, [None]
    when it throws. *)
Variable sign : string -> string -> Date.t -> option string.

(** [jwt.verify(token, SECRET_KEY)] at a moment: the [userId] of the
    payload, [None] when it throws. *)
Variable verify : string -> Date.t -> option string.

(** [POST /signup], index.js:34-52, for a body with both texts. *)
Definition signup (users : list User) (id pwd : string) (salt : nat)
           (now : Date.t) : Response * list User :=
  match findOne users id with
  | Some _ => (Status400, users)
  | None =>
      let newUser := mkUser id (hash pwd salt) 400 in
      if validateSync newUser
      then
        match sign id "3d" now with
        | Some token => (Status201 token, users ++ [newUser])
        | None => (Status500, users ++ [newUser])
        end
      else (Status500, users)
  end.

(** [POST /signin], index.js:54-70, for a body with both texts. *)
Definition signin (users : list User) (id pwd : string) (now : Date.t)
  : Response :=
  match findOne users id with
  | None => Status400
  | Some user =>
      if compare pwd (password user)
      then
        match sign id "3d" now with
        | Some token => Status200 token
        | None => Status500
        end
      else Status400
  end.

(** [authenticate], index.js:18-32. *)
Definition authenticate (authHeader : option string) (now : Date.t)
  : Gate :=
  match authHeader with
  | None => NoToken
  | Some h =>
      if String.eqb h "" then NoToken
      else
        match nth_error (split h) 1 with
        | None => BadFormat
        | Some token =>
            if String.eqb token "" then BadFormat
            else
              match verify token now with
              | Some id => Next id
              | None => InvalidToken
              end
        end
  end.

(** [POST /refresh-token], index.js:72-82. *)
Definition refresh_token (refreshToken : option string) (now : Date.t)
  : Refreshed :=
  match refreshToken with
  | None => Status403
  | Some t =>
      if String.eqb t "" || negb (existsb (String.eqb t) refreshTokens)
      then Status403
      else
        match verify t now with
        | None => Status403
        | Some id =>
            match sign id "30d" now with
            | Some accessToken => AccessToken accessToken
            | None => Thrown
            end
        end
  end.

End Crypto.

End Auth.

(** ** Runs of the handlers of index.js *)

Module Run.

(** A request that can change the store. *)
Inductive Request : Type :=
| CheckTransaction (userId : string) (b : Check.Body)
                   (at_year at_month at_save : Date.t)
| SetCategoryLimit (userId : string) (b : SetLimit.Body).

Section Runs.

Variable StringToNumber : string -> JS.num.

Definition step (st : Store) (r : Request) : Store :=
  match r with
  | CheckTransaction userId b at_year at_month at_save =>
      snd (Check.check_transaction st userId b at_year at_month at_save)
  | SetCategoryLimit userId b =>
      snd (SetLimit.set_category_limit StringToNumber st userId b)
  end.

(** The store after the requests, served one after the other. *)
Definition run (st : Store) (rs : list Request) : Store :=
  fold_left step rs st.

(** The cap the last entry of category [c] gives, if an entry has it. *)
Fixpoint last_cap (es : list SetLimit.Entry) (c : string) : option Z :=
  match es with
  | [] => None
  | e :: es' =>
      match last_cap es' c with
      | Some z => Some z
      | None =>
          match SetLimit.category e,
                JS.Number StringToNumber (SetLimit.limit e) with
          | JS.VStr c', JS.Num z => if String.eqb c' c then Some z else None
          | _, _ => None
          end
      end
  end.

End Runs.

(** No two limit documents for one (userId, category). *)
Definition unique_limits (ls : list Limit.t) : Prop :=
  NoDup (map (fun l => (Limit.userId l, Limit.category l)) ls).

(** What a document recorded by [/check-transaction] looks like. *)
Definition recorded (d : Txn.t) : Prop :=
  Txn.userId d <> "" /\ Txn.category d <> "" /\ Txn.amount d <> 0
  /\ Txn.payee d = None /\ Txn.exceededLimit d = None.

End Run.

(** A text without a space. *)
Fixpoint spaceless (s : string) : bool :=
  match s with
  | EmptyString => true
  | String c s' => negb (Ascii.eqb c " "%char) && spaceless s'
  end.


(** ** The specification's Spend Aggregator *)

Module Spec.

(** Membership of a document in the aggregate for (owner, category) over
    the closed window [windowStart, windowEnd]. *)
Definition counted (owner category : string) (windowStart windowEnd : Date.t)
           (d : Txn.t) : bool :=
  String.eqb (Txn.userId d) owner
  && String.eqb (Txn.category d) category
  && (windowStart <=? Txn.date d)
  && (Txn.date d <=? windowEnd).

(** [spendSoFar(owner, category, windowStart, windowEnd)]: the sum of the
    amounts of the transactions of (owner, category) whose timestamp
    falls within the window; 0 when there is none. *)
Fixpoint spendSoFar (txns : list Txn.t) (owner category : string)
         (windowStart windowEnd : Date.t) : Z :=
  match txns with
  | [] => 0
  | d :: txns' =>
      (if counted owner category windowStart windowEnd d
       then Txn.amount d else 0)
      + spendSoFar txns' owner category windowStart windowEnd
  end.

(** The same sum with no upper end to the window. *)
Fixpoint spendSince (txns : list Txn.t) (owner category : string)
         (windowStart : Date.t) : Z :=
  match txns with
  | [] => 0
  | d :: txns' =>
      (if String.eqb (Txn.userId d) owner
          && String.eqb (Txn.category d) category
          && (windowStart <=? Txn.date d)
       then Txn.amount d else 0)
      + spendSince txns' owner category windowStart
  end.

(** The first instant of the calendar month that contains [now]. *)
Definition monthStart (now : Date.t) : Date.t :=
  Date.make (Date.getFullYear now) (Date.getMonth now) 1.

End Spec.

(** ** What the limit test says of a request *)

(** Whether the limit test of the handler fires for this owner, category
    and amount. *)
Definition exceeds (st : Store) (userId category : string) (amount : Z)
           (at_year at_month : Date.t) : bool :=
  match Check.limit_check
          (findOne_limit st userId category)
          (Check.totalSpent st userId category
             (Check.firstDayOfMonth at_year at_month))
          amount with
  | Some _ => true
  | None => false
  end.

(** ** The range in which the sums are exact *)

(** The amounts and the caps are whole numbers held in doubles.  The
    handler adds the amounts of the window one by one, adds the amount of
    the request, compares with the cap and subtracts.  Each of these
    operations gives the exact whole number as long as the magnitudes
    involved add up to at most 2^53, up to which every whole number is a
    double. *)
Definition magnitude (txns : list Txn.t) : Z :=
  fold_right (fun d s => Z.abs (Txn.amount d) + s) 0 txns.

Definition exact_range (st : Store) (userId category : string)
           (since : Date.t) (amount cap : Z) : Prop :=
  magnitude (find_since st userId category since)
  + Z.abs amount + Z.abs cap <= 2 ^ 53.

(** ** A worked scenario

    Owner "u1", category "Food", cap 500, one transaction of 200 recorded on
    5 March 2025; the clock reads 15 March 2025, 12:00. *)

Definition march5 : Date.t := Date.make 2025 2 5.
Definition march15 : Date.t := Date.make 2025 2 15 + 12 * 3600000.
Definition march20 : Date.t := Date.make 2025 2 20.
Definition april10 : Date.t := Date.make 2025 3 10.

Definition food200 : Txn.t :=
  Txn.mk "u1" 200 "Food" march5 None None.

Definition scenario : Store :=
  {| transactions := [food200];
     limits := [Limit.mk "u1" "Food" 500] |}.

Definition request (amount : Z) (bypass : option bool) : Check.Body :=
  Check.mkBody (Some "Food") (Some amount) (Some "/done") (Some "Amazon")
               bypass [].

(** The same request with any scalar for an amount and no bypass flag. *)
Definition loose_request (amount : JS.value) : Loose.Body :=
  Loose.mkBody (Some "Food") amount (Some "/done") (Some "Amazon")
               JS.VUndefined [].


(** One transaction of "u1" under "Food", dated 10 April 2025, and a cap
    of 50. *)
Definition post_dated : Store :=
  {| transactions := [Txn.mk "u1" 100 "Food" april10 None None];
     limits := [Limit.mk "u1" "Food" 50] |}.



(** The last millisecond of 2024 and the first of 2025, and a store with
    one transaction of "u1" under "Food" dated 10 February 2024 and a cap
    of 50. *)
Definition year_end : Date.t := Date.make 2025 0 1 - 1.
Definition year_start : Date.t := Date.make 2025 0 1.

Definition last_february : Store :=
  {| transactions := [Txn.mk "u1" 100 "Food" (Date.make 2024 1 10) None None];
     limits := [Limit.mk "u1" "Food" 50] |}.

(** * Properties *)

(** ** Auxiliary facts *)

Lemma eqb_empty_false (s : string) : s <> "" -> String.eqb s "" = false.
Proof. intro H. apply String.eqb_neq. exact H. Qed.

Lemma truthy_str_Some (s : string) :
  s <> "" -> JS.truthy_str (Some s) = true.
Proof. intro H. simpl. rewrite (eqb_empty_false s H). reflexivity. Qed.

Lemma truthy_num_Some (z : Z) : z <> 0 -> JS.truthy_num (Some z) = true.
Proof.
  intro H. simpl. destruct (Z.eqb_spec z 0) as [E | _].
  - contradiction.
  - reflexivity.
Qed.

Lemma truthy_str_inv (v : option string) :
  JS.truthy_str v = true -> exists s, v = Some s /\ s <> "".
Proof.
  destruct v as [s | ]; simpl; intro H.
  - exists s. split; [reflexivity | ].
    intro E. subst s. discriminate H.
  - discriminate H.
Qed.

Lemma truthy_num_inv (v : option Z) :
  JS.truthy_num v = true -> exists z, v = Some z /\ z <> 0.
Proof.
  destruct v as [z | ]; simpl; intro H.
  - exists z. split; [reflexivity | ].
    intro E. subst z. discriminate H.
  - discriminate H.
Qed.

(** A body passes the guard exactly when its four fields are truthy. *)
Lemma missing_fields_false (b : Check.Body) :
  Check.missing_fields b = false <->
  exists c a r p,
    Check.category b = Some c /\ c <> "" /\
    Check.amount b = Some a /\ a <> 0 /\
    Check.redirectUrl b = Some r /\ r <> "" /\
    Check.payee b = Some p /\ p <> "".
Proof.
  unfold Check.missing_fields. split.
  - intro H.
    apply orb_false_elim in H. destruct H as [H Hp].
    apply orb_false_elim in H. destruct H as [H Hr].
    apply orb_false_elim in H. destruct H as [Hc Ha].
    apply negb_false_iff in Hc, Ha, Hr, Hp.
    destruct (truthy_str_inv _ Hc) as (c & Ec & Nc).
    destruct (truthy_num_inv _ Ha) as (a & Ea & Na).
    destruct (truthy_str_inv _ Hr) as (r & Er & Nr).
    destruct (truthy_str_inv _ Hp) as (p & Ep & Np).
    exists c, a, r, p. auto 10.
  - intros (c & a & r & p & Ec & Nc & Ea & Na & Er & Nr & Ep & Np).
    rewrite Ec, Ea, Er, Ep.
    rewrite (truthy_str_Some c Nc), (truthy_num_Some a Na),
      (truthy_str_Some r Nr), (truthy_str_Some p Np).
    reflexivity.
Qed.

(** Past the guard the handler is [decision] on the month's running total. *)
Lemma check_transaction_valid
      (st : Store) (userId : string) (b : Check.Body)
      (at_year at_month at_save : Date.t) (c r p : string) (a : Z) :
  Check.category b = Some c -> c <> "" ->
  Check.amount b = Some a -> a <> 0 ->
  Check.redirectUrl b = Some r -> r <> "" ->
  Check.payee b = Some p -> p <> "" ->
  Check.check_transaction st userId b at_year at_month at_save =
  Check.decision st userId c a r p (Check.bypassLimitCheck b)
              (Check.totalSpent st userId c
                 (Check.firstDayOfMonth at_year at_month))
              at_save.
Proof.
  intros Ec Nc Ea Na Er Nr Ep Np.
  unfold Check.check_transaction.
  assert (G : Check.missing_fields b = false).
  { apply missing_fields_false. exists c, a, r, p. auto 10. }
  rewrite G, Ec, Ea, Er, Ep. reflexivity.
Qed.

(** [save] of a document of a named user under a named category. *)
Lemma save_ok (st : Store) (o : TransactionInit) :
  init_userId o <> "" -> init_category o <> "" ->
  save (TransactionModel o) st =
  Some {| transactions := transactions st ++ [TransactionModel o];
          limits := limits st |}.
Proof.
  intros Hu Hc. unfold save, validateSync, checkRequired. simpl.
  rewrite (eqb_empty_false _ Hu), (eqb_empty_false _ Hc). reflexivity.
Qed.

(** The model stores neither undeclared path. *)
Lemma TransactionModel_strict (o : TransactionInit) :
  Txn.payee (TransactionModel o) = None /\
  Txn.exceededLimit (TransactionModel o) = None.
Proof. split; reflexivity. Qed.

Lemma persist_ok (st : Store) (userId category redirectUrl payee : string)
      (amount : Z) (bypass : option bool) (e : bool) (at_save : Date.t) :
  userId <> "" -> category <> "" ->
  Check.persist st userId category amount redirectUrl payee bypass e at_save =
  (Check.Status200 (e && JS.truthy_bool bypass) redirectUrl,
   {| transactions :=
        transactions st
        ++ [TransactionModel
              (mkInit userId category amount payee at_save e)];
      limits := limits st |}).
Proof.
  intros Hu Hc. unfold Check.persist.
  rewrite save_ok by assumption. reflexivity.
Qed.

(** ** The admission decision *)

(** Within the exact range every value the handler computes stays within
    2^53 of zero: each partial sum of the running total, the total plus
    the amount, the remainder under the cap and the excess over it. *)
Lemma exact_range_bounds
      (st : Store) (userId category : string) (since : Date.t)
      (amount cap : Z) :
  exact_range st userId category since amount cap ->
  let prior := Check.totalSpent st userId category since in
  (forall l1 l2,
      find_since st userId category since = l1 ++ l2 ->
      Z.abs (fold_left (fun sum txn => sum + Txn.amount txn) l1 0)
      <= 2 ^ 53)
  /\ Z.abs (prior + amount) <= 2 ^ 53
  /\ Z.abs (cap - prior) <= 2 ^ 53
  /\ Z.abs (amount - (cap - prior)) <= 2 ^ 53.
Proof.
  intros H prior. subst prior.
  unfold exact_range in H. unfold Check.totalSpent.
  assert (M : forall l acc,
             Z.abs (fold_left (fun sum txn => sum + Txn.amount txn) l acc)
             <= Z.abs acc + magnitude l).
  { induction l as [ | d l IH]; intro acc; simpl.
    - lia.
    - specialize (IH (acc + Txn.amount d)). lia. }
  assert (N : forall l, 0 <= magnitude l).
  { induction l as [ | d l IH]; simpl; lia. }
  assert (A : forall l1 l2, magnitude (l1 ++ l2)
                            = magnitude l1 + magnitude l2).
  { induction l1 as [ | d l1 IH]; intro l2; simpl.
    - reflexivity.
    - rewrite IH. lia. }
  pose proof (M (find_since st userId category since) 0) as P.
  simpl Z.abs in P.
  split; [ | lia].
  intros l1 l2 E. rewrite E, A in H.
  pose proof (M l1 0) as P1. pose proof (N l2). simpl Z.abs in P1. lia.
Qed.



Lemma reduce_sum (l : list Txn.t) (acc : Z) :
  fold_left (fun sum txn => sum + Txn.amount txn) l acc
  = acc + fold_right (fun txn sum => Txn.amount txn + sum) 0 l.
Proof.
  revert acc. induction l as [ | d l IH]; intro acc; simpl.
  - lia.
  - rewrite IH. lia.
Qed.

(** The handler's running total is the aggregate with an open upper end. *)
Lemma totalSpent_spendSince (st : Store) (userId category : string)
      (since : Date.t) :
  Check.totalSpent st userId category since
  = Spec.spendSince (transactions st) userId category since.
Proof.
  unfold Check.totalSpent, find_since. rewrite reduce_sum.
  induction (transactions st) as [ | d l IH]; simpl.
  - reflexivity.
  - destruct (String.eqb (Txn.userId d) userId
              && String.eqb (Txn.category d) category
              && (since <=? Txn.date d)); simpl in *; lia.
Qed.

Lemma spendSince_nonneg (txns : list Txn.t) (owner category : string)
      (since : Date.t) :
  Forall (fun d => 0 <= Txn.amount d) txns ->
  0 <= Spec.spendSince txns owner category since.
Proof.
  induction 1 as [ | d l Hd _ IH]; simpl.
  - lia.
  - destruct (String.eqb (Txn.userId d) owner
              && String.eqb (Txn.category d) category
              && (since <=? Txn.date d)); lia.
Qed.



(** C3 (what the code does at the specification's own boundary).  With cap
    500 and 200 already spent, a request of 300, which reaches the cap
    exactly, is answered 200 "Transaction successful" (Admit) and exactly
    one document is appended.  The object handed to the model has
    [exceededLimit = false], yet the appended document carries no such
    path, the schema not declaring it: no flag is persisted, neither false
    nor true, and the document is the very one an override would leave. *)
Theorem admitted_record_has_no_flag :
  let res :=
    Check.check_transaction scenario "u1" (request 300 None)
                            march15 march15 march15 in
  let handed := mkInit "u1" "Food" 300 "Amazon" march15 false in
  fst res = Check.Status200 false "/done"
  /\ Check.outcome (fst res) = Check.Admit
  /\ Check.totalSpent scenario "u1" "Food"
       (Check.firstDayOfMonth march15 march15) + 300 = 500
  /\ snd res = {| transactions := [food200; TransactionModel handed];
                  limits := limits scenario |}
  /\ init_exceededLimit handed = false
  /\ declares TransactionSchema "exceededLimit" = false
  /\ Txn.exceededLimit (TransactionModel handed) = None
  /\ TransactionModel handed
     = TransactionModel (mkInit "u1" "Food" 300 "Amazon" march15 true).
Proof.
  vm_compute. repeat split.
Qed.



(** The prior spend is not negative where no negative amount is on
    record. *)
Lemma totalSpent_nonneg (st : Store) (userId category : string)
      (since : Date.t) :
  Forall (fun d => 0 <= Txn.amount d) (transactions st) ->
  0 <= Check.totalSpent st userId category since.
Proof.
  intro H. rewrite totalSpent_spendSince. apply spendSince_nonneg. exact H.
Qed.


(** With the bypass flag set, a request over the cap that passes the
    guard is answered with the override and one document is appended; the
    details computed for it have exceedAmount = amount - (cap - priorSpend).
    The object handed to the model has [exceededLimit = true]; the
    appended document has no such path. *)
Lemma override_is_saved
      (st : Store) (userId c r p : string) (a : Z) (bypass : option bool)
      (others : list (string * JS.value))
      (at_year at_month at_save : Date.t) (cl : Limit.t) :
  userId <> "" -> c <> "" -> a <> 0 -> r <> "" -> p <> "" ->
  findOne_limit st userId c = Some cl ->
  Check.totalSpent st userId c (Check.firstDayOfMonth at_year at_month) + a
  > Limit.limit cl ->
  JS.truthy_bool bypass = true ->
  let priorSpend :=
    Check.totalSpent st userId c (Check.firstDayOfMonth at_year at_month) in
  let cap := Limit.limit cl in
  let handed := mkInit userId c a p at_save true in
  Check.check_transaction
    st userId (Check.mkBody (Some c) (Some a) (Some r) (Some p) bypass others)
    at_year at_month at_save
  = (Check.Status200 true r,
     {| transactions := transactions st ++ [TransactionModel handed];
        limits := limits st |})
  /\ Check.limit_check (Some cl) priorSpend a
     = Some (Check.mkDetails cap priorSpend (cap - priorSpend)
                             (a - (cap - priorSpend)))
  /\ Txn.exceededLimit (TransactionModel handed) = None.
Proof.
  intros Nu Nc Na Nr Np Hcl Hover Hby priorSpend cap handed.
  assert (G : (priorSpend + a >? cap) = true).
  { apply Z.gtb_lt. subst priorSpend cap. lia. }
  split; [ | split].
  - rewrite (check_transaction_valid st userId _ at_year at_month at_save
               c r p a); try reflexivity; try assumption.
    unfold Check.decision, Check.limit_check. simpl Check.bypassLimitCheck.
    rewrite Hcl. fold priorSpend. fold cap. rewrite G, Hby. simpl negb.
    rewrite persist_ok by assumption. rewrite Hby. reflexivity.
  - unfold Check.limit_check. fold cap. rewrite G. reflexivity.
  - reflexivity.
Qed.

(** C2 (what the code does at the specification's own scenario).  With cap
    500 and 200 already spent, a request of 350 with the bypass flag set is
    answered 200 "Transaction saved despite exceeding limit" (AdmitOverride),
    the computed details being exceedAmount = 350 - (500 - 200) = 50 and
    remaining = 300, and exactly one document is appended.  The object handed
    to the model has [exceededLimit = true], yet the appended document
    carries no such path, the schema not declaring it: its flag reads
    false. *)
Theorem override_record_has_no_flag :
  let res :=
    Check.check_transaction scenario "u1" (request 350 (Some true))
                            march15 march15 march15 in
  let handed := mkInit "u1" "Food" 350 "Amazon" march15 true in
  fst res = Check.Status200 true "/done"
  /\ Check.outcome (fst res) = Check.AdmitOverride
  /\ Check.limit_check (findOne_limit scenario "u1" "Food")
       (Check.totalSpent scenario "u1" "Food"
          (Check.firstDayOfMonth march15 march15)) 350
     = Some (Check.mkDetails 500 200 300 50)
  /\ snd res = {| transactions := [food200; TransactionModel handed];
                  limits := limits scenario |}
  /\ init_exceededLimit handed = true
  /\ Txn.exceededLimit (TransactionModel handed) = None
  /\ Txn.flagged (TransactionModel handed) = false.
Proof.
  vm_compute. repeat split.
Qed.

(** ** What a call can record *)

(** The store after a call is the store before it, or that store with one
    document appended, built from the owner, the request's category, amount
    and payee, the clock at the save and the outcome of the limit test. *)
Lemma check_transaction_store
      (st : Store) (userId : string) (b : Check.Body)
      (at_year at_month at_save : Date.t) :
  let st' :=
    snd (Check.check_transaction st userId b at_year at_month at_save) in
  st' = st
  \/ exists c a p,
       Check.category b = Some c /\ Check.amount b = Some a
       /\ Check.payee b = Some p
       /\ st' = {| transactions :=
                     transactions st
                     ++ [TransactionModel
                           (mkInit userId c a p at_save
                              (exceeds st userId c a at_year at_month))];
                   limits := limits st |}.
Proof.
  intro st'. subst st'.
  destruct (Check.missing_fields b) eqn:G.
  - left. unfold Check.check_transaction. rewrite G. reflexivity.
  - apply missing_fields_false in G.
    destruct G as (c & a & r & p & Ec & Nc & Ea & Na & Er & Nr & Ep & Np).
    rewrite (check_transaction_valid st userId b at_year at_month at_save
               c r p a) by assumption.
    unfold exceeds, Check.decision.
    destruct (Check.limit_check _ _ a) as [details | ].
    + destruct (negb (JS.truthy_bool (Check.bypassLimitCheck b))).
      * left. reflexivity.
      * unfold Check.persist, save.
        destruct (validateSync _).
        -- right. exists c, a, p. auto.
        -- left. reflexivity.
    + unfold Check.persist, save.
      destruct (validateSync _).
      * right. exists c, a, p. auto.
      * left. reflexivity.
Qed.

Lemma app_one_inv {A : Type} (l : list A) (x y : A) :
  l ++ [x] = l ++ [y] -> x = y.
Proof. intro H. apply app_inv_head in H. congruence. Qed.

Lemma app_one_neq {A : Type} (l : list A) (x : A) : l ++ [x] <> l.
Proof.
  intro H. apply (f_equal (@List.length A)) in H.
  rewrite length_app in H. simpl in H. lia.
Qed.

(** C9.  A document recorded by an admission call is dated by the server
    at the save and owned by the authenticated user; of the request it
    takes the category and the amount, and nothing but category, amount
    and payee can bear on it: two requests that agree on these three record
    the same document, whatever else their bodies carry (a date, an
    exceeded-limit flag, the bypass flag, the redirect target). *)
Theorem recorded_document_is_server_stamped
        (st : Store) (userId : string) (at_year at_month at_save : Date.t) :
  (forall (b : Check.Body) (d : Txn.t),
      transactions
        (snd (Check.check_transaction st userId b at_year at_month at_save))
      = transactions st ++ [d] ->
      Txn.date d = at_save /\ Txn.userId d = userId
      /\ Check.category b = Some (Txn.category d)
      /\ Check.amount b = Some (Txn.amount d))
  /\ (forall (b1 b2 : Check.Body) (d1 d2 : Txn.t),
        Check.category b1 = Check.category b2 ->
        Check.amount b1 = Check.amount b2 ->
        Check.payee b1 = Check.payee b2 ->
        transactions
          (snd (Check.check_transaction st userId b1
                                        at_year at_month at_save))
        = transactions st ++ [d1] ->
        transactions
          (snd (Check.check_transaction st userId b2
                                        at_year at_month at_save))
        = transactions st ++ [d2] ->
        d1 = d2).
Proof.
  split.
  - intros b d H.
    destruct (check_transaction_store st userId b at_year at_month at_save)
      as [E | (c & a & p & Ec & Ea & Ep & E)]; rewrite E in H.
    + symmetry in H. apply app_one_neq in H. contradiction.
    + simpl in H. apply app_one_inv in H. subst d. simpl. auto.
  - intros b1 b2 d1 d2 Hc Ha Hp H1 H2.
    destruct (check_transaction_store st userId b1 at_year at_month at_save)
      as [E1 | (c1 & a1 & p1 & Ec1 & Ea1 & Ep1 & E1)]; rewrite E1 in H1.
    { symmetry in H1. apply app_one_neq in H1. contradiction. }
    destruct (check_transaction_store st userId b2 at_year at_month at_save)
      as [E2 | (c2 & a2 & p2 & Ec2 & Ea2 & Ep2 & E2)]; rewrite E2 in H2.
    { symmetry in H2. apply app_one_neq in H2. contradiction. }
    simpl in H1, H2. apply app_one_inv in H1, H2. subst d1 d2.
    congruence.
Qed.

Lemma recorded_document_is_server_stamped_witness :
  Txn.date (Txn.mk "u1" 300 "Food" march15 None None) = march15
  /\ Txn.userId (Txn.mk "u1" 300 "Food" march15 None None) = "u1"
  /\ Check.category
       (Check.mkBody (Some "Food") (Some 300) (Some "/done") (Some "Amazon")
                     None [("date", JS.VNum 0);
                           ("exceededLimit", JS.VBool true)])
     = Some "Food"
  /\ Check.amount
       (Check.mkBody (Some "Food") (Some 300) (Some "/done") (Some "Amazon")
                     None [("date", JS.VNum 0);
                           ("exceededLimit", JS.VBool true)])
     = Some 300.
Proof.
  refine (proj1 (recorded_document_is_server_stamped
                   scenario "u1" march15 march15 march15)
                (Check.mkBody (Some "Food") (Some 300) (Some "/done")
                              (Some "Amazon") None
                              [("date", JS.VNum 0);
                               ("exceededLimit", JS.VBool true)])
                (Txn.mk "u1" 300 "Food" march15 None None) _).
  vm_compute. reflexivity.
Defined.

(** ** The spending window *)

(** C4, as stated, fails: on 15 March the transaction dated 10 April lies
    outside the month-to-date window, whose sum is 0, yet the handler's
    prior spend is 100, and a request of 10 is refused where the window's
    sum would admit it. *)
Lemma post_dated_transaction_is_counted :
  Spec.spendSoFar (transactions post_dated) "u1" "Food"
                  (Spec.monthStart march15) march15 = 0
  /\ Check.totalSpent post_dated "u1" "Food"
                      (Check.firstDayOfMonth march15 march15) = 100
  /\ Check.outcome
       (fst (Check.check_transaction post_dated "u1" (request 10 None)
                                     march15 march15 march15))
     = Check.RejectOverLimit (-50)
  /\ Check.outcome
       (fst (Check.decision post_dated "u1" "Food" 10 "/done" "Amazon" None
               (Spec.spendSoFar (transactions post_dated) "u1" "Food"
                                (Spec.monthStart march15) march15)
               march15))
     = Check.Admit.
Proof. vm_compute. repeat split. Qed.

(** The earlier handler bounds the window above, by the start of the
    month's last day and not by now: on 15 March it too counts a
    transaction dated 20 March. *)
Lemma earlier_window_is_not_month_to_date :
  Earlier.lastDayOfMonth march15 = Date.make 2025 2 31
  /\ Earlier.totalSpent
       {| transactions := [Txn.mk "u1" 100 "Food" march20 None None];
          limits := [] |}
       "u1" "Food" march15 = 100
  /\ Spec.spendSoFar [Txn.mk "u1" 100 "Food" march20 None None]
                     "u1" "Food" (Spec.monthStart march15) march15 = 0.
Proof. vm_compute. repeat split. Qed.

Lemma spendSince_spendSoFar (txns : list Txn.t) (owner category : string)
      (windowStart now : Date.t) :
  Forall (fun d => Txn.date d <= now) txns ->
  Spec.spendSince txns owner category windowStart
  = Spec.spendSoFar txns owner category windowStart now.
Proof.
  induction 1 as [ | d l Hd _ IH]; simpl.
  - reflexivity.
  - rewrite IH. unfold Spec.counted.
    assert (E : (Txn.date d <=? now) = true) by (apply Z.leb_le; exact Hd).
    rewrite E, andb_true_r. reflexivity.
Qed.

(** With both readings of the clock at [now], the handler's lower bound is
    the first instant of the month of [now]. *)
Lemma firstDayOfMonth_now (now : Date.t) :
  Check.firstDayOfMonth now now = Spec.monthStart now.
Proof. unfold Check.firstDayOfMonth, Spec.monthStart. reflexivity. Qed.

(** The same holds as soon as the first reading falls in the year of
    [now] and the second in a month of the same number. *)
Lemma firstDayOfMonth_same_month (at_year at_month now : Date.t) :
  Date.getFullYear at_year = Date.getFullYear now ->
  Date.getMonth at_month = Date.getMonth now ->
  Check.firstDayOfMonth at_year at_month = Spec.monthStart now.
Proof.
  intros Hy Hm. unfold Check.firstDayOfMonth, Spec.monthStart.
  rewrite Hy, Hm. reflexivity.
Qed.

(** The two readings can fall on either side of a new year: with the year
    read in the last millisecond of 2024 and the month in the first of
    2025 the window starts on 1 January 2024, a transaction of February
    2024 is counted and a request of 10 under a cap of 50 is refused. *)
Lemma window_start_mixes_two_readings :
  year_start = year_end + 1
  /\ Check.firstDayOfMonth year_end year_start = Date.make 2024 0 1
  /\ Spec.monthStart year_end = Date.make 2024 11 1
  /\ Spec.monthStart year_start = Date.make 2025 0 1
  /\ Check.totalSpent last_february "u1" "Food"
                      (Check.firstDayOfMonth year_end year_start) = 100
  /\ Check.outcome
       (fst (Check.check_transaction last_february "u1" (request 10 None)
                                     year_end year_start year_start))
     = Check.RejectOverLimit (-50).
Proof. vm_compute. repeat split. Qed.

(** C4, amended.  The prior spend the decision uses is the sum of the
    amounts of the stored transactions of the same owner and category
    dated at or after the handler's window start, with no upper end; the
    window start is the first day of the month whose year is that of one
    reading of the clock and whose number is that of a second reading.
    Where the two readings fall in the calendar month of now, the window
    start is the first instant of that month: earlier months contribute
    nothing, later dates do; and where, besides, no stored transaction is
    dated after now, the prior spend is the sum over the month-to-date
    window. *)
Theorem prior_spend_runs_from_month_start
        (st : Store) (userId c r p : string) (a : Z) (bypass : option bool)
        (others : list (string * JS.value))
        (at_year at_month at_save : Date.t) :
  c <> "" -> a <> 0 -> r <> "" -> p <> "" ->
  Check.check_transaction
    st userId (Check.mkBody (Some c) (Some a) (Some r) (Some p) bypass others)
    at_year at_month at_save
  = Check.decision st userId c a r p bypass
      (Spec.spendSince (transactions st) userId c
                       (Check.firstDayOfMonth at_year at_month))
      at_save
  /\ (forall now,
        Date.getFullYear at_year = Date.getFullYear now ->
        Date.getMonth at_month = Date.getMonth now ->
        Check.firstDayOfMonth at_year at_month = Spec.monthStart now
        /\ (Forall (fun d => Txn.date d <= now) (transactions st) ->
            Spec.spendSince (transactions st) userId c
                            (Check.firstDayOfMonth at_year at_month)
            = Spec.spendSoFar (transactions st) userId c
                              (Spec.monthStart now) now)).
Proof.
  intros Nc Na Nr Np. split.
  - rewrite (check_transaction_valid st userId _ at_year at_month at_save
               c r p a); try reflexivity; try assumption.
    simpl Check.bypassLimitCheck.
    rewrite totalSpent_spendSince. reflexivity.
  - intros now Hy Hm.
    rewrite (firstDayOfMonth_same_month at_year at_month now Hy Hm).
    split; [reflexivity | apply spendSince_spendSoFar].
Qed.

Lemma prior_spend_runs_from_month_start_witness :
  Spec.spendSince (transactions scenario) "u1" "Food"
                  (Check.firstDayOfMonth march5 march20)
  = Spec.spendSoFar (transactions scenario) "u1" "Food"
                    (Spec.monthStart march15) march15.
Proof.
  refine (proj2 (proj2 (prior_spend_runs_from_month_start
                          scenario "u1" "Food" "/done" "Amazon" 350 None []
                          march5 march20 march15 _ _ _ _)
                       march15 _ _) _).
  - discriminate.
  - discriminate.
  - discriminate.
  - discriminate.
  - vm_compute. reflexivity.
  - vm_compute. reflexivity.
  - constructor; [vm_compute; discriminate | constructor].
Defined.

(** ** Validation *)

(** A request with all four fields and the amount -5 is not refused; it
    is answered 200 and recorded. *)
Lemma negative_amount_is_recorded :
  Check.check_transaction (mkStore [] []) "u1" (request (-5) None)
                          march15 march15 march15
  = (Check.Status200 false "/done",
     {| transactions := [Txn.mk "u1" (-5) "Food" march15 None None];
        limits := [] |}).
Proof. vm_compute. reflexivity. Qed.

(** The guard tests presence only, on bodies whose amount is a number or
    missing.  A call in which the category, the amount, the redirect
    target or the payee is missing or falsy (an empty text, the amount 0)
    is answered 400 and leaves the store as it was; a call in which the
    three texts are non-empty and the amount is a number other than 0,
    positive or negative, passes the guard. *)
Lemma guard_tests_presence
      (st : Store) (userId : string) (b : Check.Body)
      (at_year at_month at_save : Date.t) :
  let res := Check.check_transaction st userId b at_year at_month at_save in
  ((Check.category b = None \/ Check.category b = Some ""
    \/ Check.amount b = None \/ Check.amount b = Some 0
    \/ Check.redirectUrl b = None \/ Check.redirectUrl b = Some ""
    \/ Check.payee b = None \/ Check.payee b = Some "") ->
   res = (Check.Status400, st))
  /\ (forall c a r p,
        Check.category b = Some c -> c <> "" ->
        Check.amount b = Some a -> a <> 0 ->
        Check.redirectUrl b = Some r -> r <> "" ->
        Check.payee b = Some p -> p <> "" ->
        Check.outcome (fst res) <> Check.ValidationError).
Proof.
  intro res. subst res. split.
  - intro H. unfold Check.check_transaction.
    assert (G : Check.missing_fields b = true).
    { unfold Check.missing_fields.
      destruct H as [H | [H | [H | [H | [H | [H | [H | H]]]]]]];
        rewrite H; simpl; rewrite ?orb_true_r; reflexivity. }
    rewrite G. reflexivity.
  - intros c a r p Ec Nc Ea Na Er Nr Ep Np.
    rewrite (check_transaction_valid st userId b at_year at_month at_save
               c r p a) by assumption.
    unfold Check.decision.
    destruct (Check.limit_check _ _ a) as [details | ].
    + destruct (negb (JS.truthy_bool (Check.bypassLimitCheck b))).
      * simpl. discriminate.
      * unfold Check.persist. destruct (save _ st); simpl.
        -- destruct (JS.truthy_bool _); discriminate.
        -- discriminate.
    + unfold Check.persist. destruct (save _ st); simpl; discriminate.
Qed.

(** On a body whose amount is a number or missing and whose bypass flag
    is a boolean or missing, the handler for bodies of any scalars is the
    handler for typed bodies. *)
Lemma loose_check_transaction_of_body
      (StringToNumber : string -> JS.num)
      (st : Store) (userId : string) (b : Check.Body)
      (at_year at_month at_save : Date.t) :
  Loose.check_transaction StringToNumber st userId (Loose.of_body b)
                          at_year at_month at_save
  = (Loose.of_response
       (fst (Check.check_transaction st userId b at_year at_month at_save)),
     snd (Check.check_transaction st userId b at_year at_month at_save)).
Proof.
  destruct b as [c a r p bypass others].
  unfold Loose.check_transaction, Check.check_transaction,
    Loose.missing_fields, Check.missing_fields, Loose.of_body.
  simpl.
  destruct c as [c | ]; [ | reflexivity].
  destruct a as [a | ]; simpl JS.truthy_num; simpl Loose.truthy;
    [ | destruct (negb (JS.truthy_str (Some c))); reflexivity].
  destruct r as [r | ];
    [ | simpl; rewrite !orb_true_r; reflexivity].
  destruct p as [p | ];
    [ | simpl; rewrite !orb_true_r; reflexivity].
  destruct (negb (JS.truthy_str (Some c)) || negb (negb (a =? 0))
            || negb (JS.truthy_str (Some r))
            || negb (JS.truthy_str (Some p))); [reflexivity | ].
  unfold Check.decision, Check.limit_check, Loose.persist, Check.persist,
    Loose.plus, Loose.gt, Loose.minus.
  simpl.
  assert (T : Loose.truthy
                match bypass with
                | Some x => JS.VBool x
                | None => JS.VUndefined
                end
              = JS.truthy_bool bypass).
  { destruct bypass as [[ | ] | ]; reflexivity. }
  rewrite T.
  destruct (findOne_limit st userId c) as [cl | ].
  - destruct (_ >? Limit.limit cl).
    + destruct (JS.truthy_bool bypass); simpl.
      * destruct (save _ st); reflexivity.
      * reflexivity.
    + destruct (save _ st); reflexivity.
  - destruct (save _ st); reflexivity.
Qed.

(** The values the guard takes for a missing amount. *)
Lemma truthy_false_iff (v : JS.value) :
  Loose.truthy v = false <->
  v = JS.VUndefined \/ v = JS.VNull \/ v = JS.VBool false
  \/ v = JS.VNum 0 \/ v = JS.VStr "".
Proof.
  split.
  - destruct v as [ | | [ | ] | z | s]; simpl; intro H;
      try discriminate; auto.
    + apply negb_false_iff, Z.eqb_eq in H. subst z. auto.
    + apply negb_false_iff, String.eqb_eq in H. subst s. auto 6.
  - intros [H | [H | [H | [H | H]]]]; subst v; reflexivity.
Qed.

(** C6, as stated, fails.  An amount that is not a positive number is
    not refused: -5 is answered 200 and recorded; so is the text "300",
    recorded as 300, and the boolean true, recorded as 1.  And where a
    cap is configured the text is appended to the total, not added: with
    200 spent under a cap of 500 the amount "300" makes "200300", which
    is above the cap, and the call is answered 411, where the number 300
    reaches the cap exactly and is let through. *)
Lemma unchecked_amounts_are_recorded :
  Loose.check_transaction JS.decimal (mkStore [] []) "u1"
                          (loose_request (JS.VNum (-5)))
                          march15 march15 march15
  = (Loose.Status200 false "/done",
     {| transactions := [Txn.mk "u1" (-5) "Food" march15 None None];
        limits := [] |})
  /\ Loose.check_transaction JS.decimal (mkStore [] []) "u1"
                             (loose_request (JS.VStr "300"))
                             march15 march15 march15
     = (Loose.Status200 false "/done",
        {| transactions := [Txn.mk "u1" 300 "Food" march15 None None];
           limits := [] |})
  /\ Loose.check_transaction JS.decimal (mkStore [] []) "u1"
                             (loose_request (JS.VBool true))
                             march15 march15 march15
     = (Loose.Status200 false "/done",
        {| transactions := [Txn.mk "u1" 1 "Food" march15 None None];
           limits := [] |})
  /\ Loose.plus JS.decimal 200 (JS.VStr "300") = Loose.SumStr "200300"
  /\ Loose.check_transaction JS.decimal scenario "u1"
                             (loose_request (JS.VStr "300"))
                             march15 march15 march15
     = (Loose.Status411 300 (Loose.mkDetails 500 200 300 (JS.Num 0)),
        scenario)
  /\ fst (Loose.check_transaction JS.decimal scenario "u1"
                                  (loose_request (JS.VNum 300))
                                  march15 march15 march15)
     = Loose.Status200 false "/done".
Proof. vm_compute. repeat split. Qed.

(** C6, amended.  The guard tests truthiness only, whatever scalar the
    amount is.  A call in which the category, the redirect target or the
    payee is missing or the empty text, or in which the amount is falsy
    (missing, null, false, 0 or the empty text), is answered 400 and
    leaves the store as it was.  A call in which the three texts are
    non-empty and the amount is anything else (a number other than 0,
    positive or negative, a non-empty text, or true) passes the guard:
    it is not answered 400, and the store it leaves is the one it found
    or that store with one document appended, for the owner, the
    category and the number the amount is cast to. *)
Theorem guard_tests_truthiness
        (StringToNumber : string -> JS.num)
        (st : Store) (userId : string) (b : Loose.Body)
        (at_year at_month at_save : Date.t) :
  let res :=
    Loose.check_transaction StringToNumber st userId b
                            at_year at_month at_save in
  ((Loose.category b = None \/ Loose.category b = Some ""
    \/ Loose.amount b = JS.VUndefined \/ Loose.amount b = JS.VNull
    \/ Loose.amount b = JS.VBool false \/ Loose.amount b = JS.VNum 0
    \/ Loose.amount b = JS.VStr ""
    \/ Loose.redirectUrl b = None \/ Loose.redirectUrl b = Some ""
    \/ Loose.payee b = None \/ Loose.payee b = Some "") ->
   res = (Loose.Status400, st))
  /\ (forall c r p,
        Loose.category b = Some c -> c <> "" ->
        Loose.truthy (Loose.amount b) = true ->
        Loose.redirectUrl b = Some r -> r <> "" ->
        Loose.payee b = Some p -> p <> "" ->
        fst res <> Loose.Status400
        /\ (snd res = st
            \/ exists a exceeded,
                 Loose.castNumber StringToNumber (Loose.amount b) = Some a
                 /\ snd res
                    = {| transactions :=
                           transactions st
                           ++ [TransactionModel
                                 (mkInit userId c a p at_save exceeded)];
                         limits := limits st |})).
Proof.
  intro res. subst res. split.
  - intro H. unfold Loose.check_transaction.
    assert (G : Loose.missing_fields b = true).
    { unfold Loose.missing_fields.
      destruct H as [H | [H | [H | [H | [H | [H | [H | [H | [H | [H | H]]]]]]]]]];
        rewrite H; simpl; rewrite ?orb_true_r; reflexivity. }
    rewrite G. reflexivity.
  - intros c r p Ec Nc Ta Er Nr Ep Np.
    unfold Loose.check_transaction, Loose.missing_fields.
    rewrite Ec, Er, Ep, Ta.
    rewrite !truthy_str_Some by assumption. simpl.
    assert (P : forall bypass exceeded,
               let out :=
                 Loose.persist StringToNumber st userId c (Loose.amount b)
                               r p bypass exceeded at_save in
               fst out <> Loose.Status400
               /\ (snd out = st
                   \/ exists a exceeded',
                        Loose.castNumber StringToNumber (Loose.amount b)
                        = Some a
                        /\ snd out
                           = {| transactions :=
                                  transactions st
                                  ++ [TransactionModel
                                        (mkInit userId c a p at_save
                                                exceeded')];
                                limits := limits st |})).
    { intros bypass exceeded. unfold Loose.persist.
      destruct (Loose.castNumber StringToNumber (Loose.amount b))
        as [a | ]; simpl; [ | split; [discriminate | left; reflexivity]].
      destruct (save _ st) as [st' | ] eqn:S; simpl.
      - split; [discriminate | ]. right. exists a, exceeded.
        split; [reflexivity | ].
        unfold save in S.
        destruct (validateSync _); [ | discriminate S].
        injection S as <-. reflexivity.
      - split; [discriminate | left; reflexivity]. }
    destruct (findOne_limit st userId c) as [cl | ]; [ | apply P].
    destruct (Loose.gt _ _ _); [ | apply P].
    destruct (negb (Loose.truthy (Loose.bypassLimitCheck b)));
      [ | apply P].
    simpl. split; [discriminate | left; reflexivity].
Qed.

Lemma guard_tests_truthiness_witness :
  Loose.check_transaction JS.decimal scenario "u1"
                          (loose_request (JS.VNum 0))
                          march15 march15 march15
  = (Loose.Status400, scenario)
  /\ fst (Loose.check_transaction JS.decimal scenario "u1"
                                  (loose_request (JS.VStr "abc"))
                                  march15 march15 march15)
     <> Loose.Status400.
Proof.
  split.
  - refine (proj1 (guard_tests_truthiness JS.decimal scenario "u1"
                     (loose_request (JS.VNum 0))
                     march15 march15 march15) _).
    do 5 right. left. reflexivity.
  - refine (proj1 (proj2 (guard_tests_truthiness JS.decimal scenario "u1"
                            (loose_request (JS.VStr "abc"))
                            march15 march15 march15)
                         "Food" "/done" "Amazon" _ _ _ _ _ _ _)).
    + reflexivity.
    + discriminate.
    + reflexivity.
    + reflexivity.
    + discriminate.
    + reflexivity.
    + discriminate.
Defined.

(** ** Category inference *)

Lemma has_payee_iff (p : string) (d : Txn.t) :
  Infer.has_payee p d = true <-> Txn.payee d = Some p.
Proof.
  unfold Infer.has_payee. destruct (Txn.payee d) as [q | ].
  - rewrite String.eqb_eq. split; congruence.
  - split; discriminate.
Qed.

Lemma has_payee_user_iff (p u : string) (d : Txn.t) :
  Infer.has_payee_user p u d = true
  <-> Txn.payee d = Some p /\ Txn.userId d = u.
Proof.
  unfold Infer.has_payee_user.
  rewrite andb_true_iff, has_payee_iff, String.eqb_eq. reflexivity.
Qed.

Section Sorting.

Variable createdAt : Txn.t -> option Date.t.

Lemma insert_desc_In (d x : Txn.t) (l : list Txn.t) :
  In x (Infer.insert_desc createdAt d l) <-> x = d \/ In x l.
Proof.
  induction l as [ | y l IH]; simpl.
  - split; intros [H | H]; auto.
  - destruct (Infer.key_lt (createdAt d) (createdAt y)); simpl.
    + rewrite IH. split; intros [H | [H | H]]; auto.
    + split; intros [H | [H | H]]; auto.
Qed.

(** The sort keeps the documents it is given, whatever their order. *)
Lemma sort_In (x : Txn.t) (l : list Txn.t) :
  In x (Infer.sort_createdAt_desc createdAt l) <-> In x l.
Proof.
  induction l as [ | y l IH]; simpl.
  - reflexivity.
  - rewrite insert_desc_In, IH. split; intros [H | H]; auto.
Qed.

Lemma findOne_sorted_Some (st : Store) (f : Txn.t -> bool) (d : Txn.t) :
  Infer.findOne_sorted createdAt st f = Some d ->
  In d (transactions st) /\ f d = true.
Proof.
  unfold Infer.findOne_sorted. intro H.
  assert (K : In d (Infer.sort_createdAt_desc
                      createdAt (filter f (transactions st)))).
  { destruct (Infer.sort_createdAt_desc createdAt _) as [ | x l];
      [discriminate H | ].
    simpl in H. injection H as <-. left. reflexivity. }
  apply (proj1 (sort_In _ _)) in K.
  apply (proj1 (filter_In _ _ _)) in K. exact K.
Qed.

Lemma findOne_sorted_None (st : Store) (f : Txn.t -> bool) :
  Infer.findOne_sorted createdAt st f = None ->
  forall d, In d (transactions st) -> f d = false.
Proof.
  unfold Infer.findOne_sorted. intros H d Hd.
  destruct (f d) eqn:F; [exfalso | reflexivity].
  assert (K : In d (Infer.sort_createdAt_desc
                      createdAt (filter f (transactions st)))).
  { apply (proj2 (sort_In _ _)). apply (proj2 (filter_In _ _ _)). auto. }
  destruct (Infer.sort_createdAt_desc createdAt _) as [ | x l];
    [destruct K | discriminate H].
Qed.

Lemma findOne_sorted_none_match (st : Store) (f : Txn.t -> bool) :
  (forall d, In d (transactions st) -> f d = false) ->
  Infer.findOne_sorted createdAt st f = None.
Proof.
  intro H.
  destruct (Infer.findOne_sorted createdAt st f) as [d | ] eqn:F;
    [ | reflexivity].
  apply findOne_sorted_Some in F. destruct F as [Hin Hf].
  rewrite (H d Hin) in Hf. discriminate Hf.
Qed.

(** X30.  What the inference answers, by the documents that carry the
    payee: for a non-empty payee it answers 200, with the category of a stored
    transaction of the caller that carries the payee when there is one;
    otherwise with the category of a stored transaction of any user that
    carries the payee when there is one; and with [null] when no stored
    transaction carries the payee. *)
Lemma inferred_category
      (st : Store) (userId p : string) :
  p <> "" ->
  let res := Infer.get_category createdAt st userId
                                (Infer.mkBody (Some p)) in
  ((exists d, In d (transactions st)
              /\ Txn.payee d = Some p /\ Txn.userId d = userId) ->
   exists d, In d (transactions st)
             /\ Txn.payee d = Some p /\ Txn.userId d = userId
             /\ res = Infer.Status200 (JS.VStr (Txn.category d)))
  /\ ((forall d, In d (transactions st) ->
                 ~ (Txn.payee d = Some p /\ Txn.userId d = userId)) ->
      (exists d, In d (transactions st) /\ Txn.payee d = Some p) ->
      exists d, In d (transactions st) /\ Txn.payee d = Some p
                /\ res = Infer.Status200 (JS.VStr (Txn.category d)))
  /\ ((forall d, In d (transactions st) -> Txn.payee d <> Some p) ->
      res = Infer.Status200 JS.VNull).
Proof.
  intros Np res. subst res. unfold Infer.get_category.
  simpl Infer.payee. rewrite (truthy_str_Some p Np). simpl negb.
  split; [ | split].
  - intros (d & Hin & Hp & Hu).
    destruct (Infer.findOne_sorted createdAt st
                (Infer.has_payee_user p userId)) as [d' | ] eqn:F.
    + apply findOne_sorted_Some in F. destruct F as [Hin' Hm].
      apply has_payee_user_iff in Hm. destruct Hm as [Hp' Hu'].
      exists d'. auto.
    + exfalso.
      pose proof (findOne_sorted_None _ _ F d Hin) as Hm.
      assert (T : Infer.has_payee_user p userId d = true)
        by (apply has_payee_user_iff; auto).
      congruence.
  - intros Hnone (d & Hin & Hp).
    destruct (Infer.findOne_sorted createdAt st
                (Infer.has_payee_user p userId)) as [d' | ] eqn:F.
    + exfalso. apply findOne_sorted_Some in F. destruct F as [Hin' Hm].
      apply has_payee_user_iff in Hm. exact (Hnone d' Hin' Hm).
    + destruct (Infer.findOne_sorted createdAt st (Infer.has_payee p))
        as [g | ] eqn:G.
      * apply findOne_sorted_Some in G. destruct G as [Hin' Hm].
        apply has_payee_iff in Hm. exists g. auto.
      * exfalso.
        pose proof (findOne_sorted_None _ _ G d Hin) as Hm.
        assert (T : Infer.has_payee p d = true)
          by (apply has_payee_iff; exact Hp).
        congruence.
  - intro Hnone.
    rewrite (findOne_sorted_none_match st (Infer.has_payee_user p userId)).
    + rewrite (findOne_sorted_none_match st (Infer.has_payee p));
        [reflexivity | ].
      intros d Hd. destruct (Infer.has_payee p d) eqn:T;
        [ | reflexivity].
      apply has_payee_iff in T. exfalso. exact (Hnone d Hd T).
    + intros d Hd. destruct (Infer.has_payee_user p userId d) eqn:T;
        [ | reflexivity].
      apply has_payee_user_iff in T. destruct T as [T _].
      exfalso. exact (Hnone d Hd T).
Qed.

(** C5 (what the code does at the specification's own scenario).  "u2"
    has a transaction admitted for the payee "Amazon" under "Shopping";
    the document recorded for it carries no payee, the schema not
    declaring the path.  The inference for "u1" and "Amazon", which
    should answer "Shopping", the category of the most recent matching
    transaction of any owner, answers 200 with [null], and so does the
    inference for "u2" itself, whatever [createdAt] the collection holds
    for the document. *)
Theorem inference_after_admission :
  let st :=
    snd (Check.check_transaction
           (mkStore [] []) "u2"
           (Check.mkBody (Some "Shopping") (Some 40) (Some "/done")
                         (Some "Amazon") None [])
           march5 march5 march5) in
  let handed := mkInit "u2" "Shopping" 40 "Amazon" march5 false in
  transactions st = [TransactionModel handed]
  /\ init_payee handed = "Amazon"
  /\ declares TransactionSchema "payee" = false
  /\ declares TransactionSchema "createdAt" = false
  /\ TransactionModel handed = Txn.mk "u2" 40 "Shopping" march5 None None
  /\ Infer.get_category createdAt st "u1" (Infer.mkBody (Some "Amazon"))
     = Infer.Status200 JS.VNull
  /\ Infer.get_category createdAt st "u2" (Infer.mkBody (Some "Amazon"))
     = Infer.Status200 JS.VNull.
Proof. vm_compute. repeat split. Qed.

End Sorting.

(** On a collection whose documents carry the payee, the sort on
    [createdAt] decides between two matches of the caller: the later one
    where the documents carry the path, the one that comes first in the
    collection where they do not. *)
Lemma inference_takes_first_match :
  let books := Txn.mk "u1" 10 "Books" march5 (Some "Amazon") None in
  let shopping := Txn.mk "u1" 20 "Shopping" march15 (Some "Amazon") None in
  let st := {| transactions := [books; shopping]; limits := [] |} in
  Infer.get_category (fun d => Some (Txn.date d)) st "u1"
                     (Infer.mkBody (Some "Amazon"))
  = Infer.Status200 (JS.VStr "Shopping")
  /\ Infer.get_category (fun _ => None) st "u1"
                        (Infer.mkBody (Some "Amazon"))
     = Infer.Status200 (JS.VStr "Books").
Proof. vm_compute. split; reflexivity. Qed.

(** ** Setting limits *)

(** C7, as stated, fails: the second entry of this batch has a number for
    a category, the request is answered 400, and the limit of the first
    entry has been stored all the same. *)
Lemma rejected_batch_is_partly_applied :
  SetLimit.set_category_limit
    JS.decimal (mkStore [] []) "u1"
    (SetLimit.mkBody
       (Some [SetLimit.mkEntry (JS.VStr "Food") (JS.VNum 100);
              SetLimit.mkEntry (JS.VNum 5) (JS.VNum 1)]))
  = (SetLimit.InvalidEntry,
     {| transactions := []; limits := [Limit.mk "u1" "Food" 100] |})
  /\ {| transactions := []; limits := [Limit.mk "u1" "Food" 100] |}
     <> mkStore [] [].
Proof. split; [reflexivity | discriminate]. Qed.

Section SetLimitFacts.

Variable StringToNumber : string -> JS.num.

(** What the loop has done when it meets an entry that fails the test. *)
Lemma apply_entries_stops
      (pre post : list SetLimit.Entry) (e : SetLimit.Entry)
      (st : Store) (userId : string) :
  Forall (fun x => SetLimit.rejected StringToNumber x = false) pre ->
  SetLimit.rejected StringToNumber e = true ->
  SetLimit.apply_entries StringToNumber st userId (pre ++ e :: post)
  = (SetLimit.InvalidEntry,
     fold_left (fun s x => SetLimit.apply_entry StringToNumber s userId x)
               pre st).
Proof.
  intros Hpre He. revert st.
  induction Hpre as [ | x pre Hx _ IH]; intro st; simpl.
  - fold (SetLimit.rejected StringToNumber e). rewrite He. reflexivity.
  - fold (SetLimit.rejected StringToNumber x). rewrite Hx. apply IH.
Qed.

(** An entry passes the test exactly when its category is a string and
    the coercion of its limit is a number that is not negative. *)
Lemma accepted_iff (e : SetLimit.Entry) :
  SetLimit.rejected StringToNumber e = false <->
  exists c z, SetLimit.category e = JS.VStr c
              /\ JS.Number StringToNumber (SetLimit.limit e) = JS.Num z
              /\ 0 <= z.
Proof.
  unfold SetLimit.rejected. split.
  - intro H.
    apply orb_false_elim in H. destruct H as [H Hneg].
    apply orb_false_elim in H. destruct H as [Hty Hnan].
    destruct (SetLimit.category e) as [ | | b | n | c]; try discriminate.
    destruct (JS.Number StringToNumber (SetLimit.limit e)) as [z | ];
      try discriminate.
    simpl in Hneg. exists c, z. repeat split. lia.
  - intros (c & z & Ec & Ez & Hz). rewrite Ec, Ez. simpl.
    destruct (Z.ltb_spec z 0); [lia | reflexivity].
Qed.

(** On an array of objects the handler for arrays of any elements is the
    handler for arrays of entries. *)
Lemma batch_apply_elements_of_entries
      (es : list SetLimit.Entry) (st : Store) (userId : string) :
  Batch.apply_elements StringToNumber st userId (map Batch.Object es)
  = (Batch.of_response
       (fst (SetLimit.apply_entries StringToNumber st userId es)),
     snd (SetLimit.apply_entries StringToNumber st userId es)).
Proof.
  revert st. induction es as [ | e es IH]; intro st; simpl.
  - reflexivity.
  - fold (SetLimit.rejected StringToNumber e).
    destruct (SetLimit.rejected StringToNumber e).
    + reflexivity.
    + apply IH.
Qed.

Lemma batch_set_category_limit_of_body
      (st : Store) (userId : string) (b : SetLimit.Body) :
  Batch.set_category_limit StringToNumber st userId (Batch.of_body b)
  = (Batch.of_response
       (fst (SetLimit.set_category_limit StringToNumber st userId b)),
     snd (SetLimit.set_category_limit StringToNumber st userId b)).
Proof.
  destruct b as [[es | ]]; [ | reflexivity].
  unfold Batch.set_category_limit, SetLimit.set_category_limit,
    Batch.of_body.
  simpl SetLimit.limits. simpl Batch.limits.
  destruct es as [ | e es]; [reflexivity | ].
  change (map Batch.Object (e :: es))
    with (Batch.Object e :: map Batch.Object es).
  change (Batch.Object e :: map Batch.Object es)
    with (map Batch.Object (e :: es)).
  apply batch_apply_elements_of_entries.
Qed.

(** What the loop has done when it meets an element it does not apply:
    an entry that fails the test, or a null, at whose destructuring the
    loop throws. *)
Lemma apply_elements_stops
      (pre : list SetLimit.Entry) (bad : Batch.Element)
      (post : list Batch.Element) (st : Store) (userId : string) :
  Forall (fun x => SetLimit.rejected StringToNumber x = false) pre ->
  match bad with
  | Batch.Object e => SetLimit.rejected StringToNumber e = true
  | Batch.Null => True
  end ->
  Batch.apply_elements StringToNumber st userId
                       (map Batch.Object pre ++ bad :: post)
  = (match bad with
     | Batch.Object _ => Batch.InvalidEntry
     | Batch.Null => Batch.ServerError
     end,
     fold_left (fun s x => SetLimit.apply_entry StringToNumber s userId x)
               pre st).
Proof.
  intros Hpre He. revert st.
  induction Hpre as [ | x pre Hx _ IH]; intro st; simpl.
  - destruct bad as [e | ]; [ | reflexivity].
    fold (SetLimit.rejected StringToNumber e). rewrite He. reflexivity.
  - fold (SetLimit.rejected StringToNumber x). rewrite Hx. apply IH.
Qed.

(** Applying entries touches no transaction. *)
Lemma apply_entries_transactions
      (pre : list SetLimit.Entry) (st : Store) (userId : string) :
  transactions
    (fold_left (fun s x => SetLimit.apply_entry StringToNumber s userId x)
               pre st)
  = transactions st.
Proof.
  revert st. induction pre as [ | x pre IH]; intro st; simpl.
  - reflexivity.
  - rewrite IH. unfold SetLimit.apply_entry.
    destruct (SetLimit.category x); try reflexivity.
    destruct (JS.Number _ _); reflexivity.
Qed.

(** An upsert leaves its limit on record. *)
Lemma upsert_In (ls : list Limit.t) (userId c : string) (z : Z) :
  In (Limit.mk userId c z) (upsert ls userId c z).
Proof.
  induction ls as [ | l ls IH]; simpl.
  - left. reflexivity.
  - destruct (String.eqb (Limit.userId l) userId
              && String.eqb (Limit.category l) c).
    + left. reflexivity.
    + right. exact IH.
Qed.

(** C7, amended.  The elements are tested one by one as they are applied.
    When an element is an entry whose category is not a string, or whose
    limit has a numeric coercion that is NaN or negative, the request is
    answered 400 at that element; when it is null, the request is
    answered 500 there.  In both cases the stored limits are those that
    applying the entries before it, in order, gives: these entries have
    been applied and stay so (the limit of the last of them is on
    record), the elements from the failing one on are not applied, and no
    transaction is touched.  In particular the store is as it was when
    no entry precedes the failing element. *)
Theorem rejected_batch_keeps_prefix
        (pre : list SetLimit.Entry) (bad : Batch.Element)
        (post : list Batch.Element) (st : Store) (userId : string) :
  Forall (fun x => SetLimit.rejected StringToNumber x = false) pre ->
  match bad with
  | Batch.Object e => SetLimit.rejected StringToNumber e = true
  | Batch.Null => True
  end ->
  let res :=
    Batch.set_category_limit
      StringToNumber st userId
      (Batch.mkBody (Some (map Batch.Object pre ++ bad :: post))) in
  let applied :=
    fold_left (fun s x => SetLimit.apply_entry StringToNumber s userId x)
              pre st in
  res = (match bad with
         | Batch.Object _ => Batch.InvalidEntry
         | Batch.Null => Batch.ServerError
         end, applied)
  /\ transactions applied = transactions st
  /\ (pre = [] -> applied = st)
  /\ (forall pre' e,
        pre = pre' ++ [e] ->
        exists c z,
          SetLimit.category e = JS.VStr c
          /\ JS.Number StringToNumber (SetLimit.limit e) = JS.Num z
          /\ 0 <= z
          /\ In (Limit.mk userId c z) (limits applied)).
Proof.
  intros Hpre He res applied. subst res applied.
  split; [ | split; [ | split]].
  - unfold Batch.set_category_limit. simpl Batch.limits.
    destruct (map Batch.Object pre ++ bad :: post) as [ | y l] eqn:L.
    + destruct pre; discriminate L.
    + rewrite <- L. apply apply_elements_stops; assumption.
  - apply apply_entries_transactions.
  - intro Hnil. subst pre. reflexivity.
  - intros pre' e Epre. subst pre.
    assert (Ae : SetLimit.rejected StringToNumber e = false).
    { rewrite Forall_forall in Hpre. apply Hpre.
      apply in_or_app. right. left. reflexivity. }
    destruct (proj1 (accepted_iff e) Ae) as (c & z & Ec & Ez & Hz).
    exists c, z. repeat split; try assumption.
    rewrite fold_left_app. simpl.
    unfold SetLimit.apply_entry at 1. rewrite Ec, Ez.
    unfold findOneAndUpdate. simpl. apply upsert_In.
Qed.

(** C10.  A batch of one entry whose category is any string, the empty
    one included, and whose limit coerces to a number that is not
    negative (a number, or a string the builtin reads as one) is
    answered 200, and a limit document with that category, the empty one
    included, is on record afterwards. *)
Theorem empty_category_is_accepted
        (st : Store) (userId : string) :
  (exists b st',
      SetLimit.set_category_limit StringToNumber st userId b
      = (SetLimit.Updated, st')
      /\ In (Limit.mk userId "" 100) (limits st'))
  /\ (forall (c : string) (cap : JS.value) (z : Z),
        JS.Number StringToNumber cap = JS.Num z -> 0 <= z ->
        SetLimit.set_category_limit StringToNumber
          st userId
          (SetLimit.mkBody (Some [SetLimit.mkEntry (JS.VStr c) cap]))
        = (SetLimit.Updated, findOneAndUpdate st userId c z)
        /\ In (Limit.mk userId c z)
              (limits (findOneAndUpdate st userId c z))).
Proof.
  assert (U : forall c z ls, In (Limit.mk userId c z) (upsert ls userId c z)).
  { intros c z ls. induction ls as [ | l ls IH]; simpl.
    - left. reflexivity.
    - destruct (String.eqb (Limit.userId l) userId
                && String.eqb (Limit.category l) c).
      + left. reflexivity.
      + right. exact IH. }
  assert (G : forall c cap z,
             JS.Number StringToNumber cap = JS.Num z -> 0 <= z ->
             SetLimit.set_category_limit StringToNumber
               st userId
               (SetLimit.mkBody (Some [SetLimit.mkEntry (JS.VStr c) cap]))
             = (SetLimit.Updated, findOneAndUpdate st userId c z)).
  { intros c cap z Ez Hz.
    unfold SetLimit.set_category_limit. simpl.
    unfold SetLimit.rejected, SetLimit.apply_entry. simpl.
    rewrite Ez. simpl.
    destruct (Z.ltb_spec z 0); [lia | reflexivity]. }
  split.
  - exists (SetLimit.mkBody
              (Some [SetLimit.mkEntry (JS.VStr "") (JS.VNum 100)])),
           (findOneAndUpdate st userId "" 100).
    split.
    + apply G; [reflexivity | lia].
    + apply U.
  - intros c cap z Ez Hz. split.
    + apply G; assumption.
    + apply U.
Qed.

End SetLimitFacts.

Lemma rejected_batch_keeps_prefix_witness :
  Batch.set_category_limit
    JS.decimal scenario "u1"
    (Batch.mkBody
       (Some (map Batch.Object
                  [SetLimit.mkEntry (JS.VStr "Fuel") (JS.VStr "80")]
              ++ Batch.Object (SetLimit.mkEntry (JS.VStr "Rent") (JS.VNum (-1)))
              :: [Batch.Object
                    (SetLimit.mkEntry (JS.VStr "Food") (JS.VNum 9))])))
  = (Batch.InvalidEntry,
     {| transactions := [food200];
        limits := [Limit.mk "u1" "Food" 500; Limit.mk "u1" "Fuel" 80] |})
  /\ Batch.set_category_limit
       JS.decimal scenario "u1"
       (Batch.mkBody
          (Some (map Batch.Object
                     [SetLimit.mkEntry (JS.VStr "Fuel") (JS.VStr "80")]
                 ++ Batch.Null :: [])))
     = (Batch.ServerError,
        {| transactions := [food200];
           limits := [Limit.mk "u1" "Food" 500; Limit.mk "u1" "Fuel" 80] |}).
Proof.
  split.
  - refine (proj1 (rejected_batch_keeps_prefix
                     JS.decimal
                     [SetLimit.mkEntry (JS.VStr "Fuel") (JS.VStr "80")]
                     (Batch.Object
                        (SetLimit.mkEntry (JS.VStr "Rent") (JS.VNum (-1))))
                     [Batch.Object
                        (SetLimit.mkEntry (JS.VStr "Food") (JS.VNum 9))]
                     scenario "u1" _ _)).
    + constructor; [reflexivity | constructor].
    + reflexivity.
  - refine (proj1 (rejected_batch_keeps_prefix
                     JS.decimal
                     [SetLimit.mkEntry (JS.VStr "Fuel") (JS.VStr "80")]
                     Batch.Null [] scenario "u1" _ _)).
    + constructor; [reflexivity | constructor].
    + exact I.
Defined.

Lemma empty_category_is_accepted_witness :
  SetLimit.set_category_limit
    JS.decimal scenario "u1"
    (SetLimit.mkBody (Some [SetLimit.mkEntry (JS.VStr "") (JS.VStr "250")]))
  = (SetLimit.Updated, findOneAndUpdate scenario "u1" "" 250)
  /\ In (Limit.mk "u1" "" 250)
        (limits (findOneAndUpdate scenario "u1" "" 250)).
Proof.
  refine (proj2 (empty_category_is_accepted JS.decimal scenario "u1")
                "" (JS.VStr "250") 250 _ _).
  - reflexivity.
  - discriminate.
Defined.

(** * Further properties of the handlers *)

(** ** The limits collection *)

Lemma findOne_upsert (ls : list Limit.t) (u c u' c' : string) (z : Z) :
  find (fun l => String.eqb (Limit.userId l) u'
                 && String.eqb (Limit.category l) c')
       (upsert ls u c z)
  = if String.eqb u u' && String.eqb c c'
    then Some (Limit.mk u c z)
    else find (fun l => String.eqb (Limit.userId l) u'
                        && String.eqb (Limit.category l) c') ls.
Proof.
  induction ls as [ | l ls IH]; simpl.
  - destruct (String.eqb u u' && String.eqb c c'); reflexivity.
  - destruct (String.eqb_spec (Limit.userId l) u) as [Eu | Nu];
      destruct (String.eqb_spec (Limit.category l) c) as [Ec | Nc];
      simpl.
    + rewrite Eu, Ec.
      destruct (String.eqb u u' && String.eqb c c'); reflexivity.
    + rewrite IH.
      destruct (String.eqb_spec u u') as [E1 | N1];
        destruct (String.eqb_spec c c') as [E2 | N2]; simpl;
        try reflexivity.
      subst u' c'. rewrite Eu, String.eqb_refl. simpl.
      destruct (String.eqb_spec (Limit.category l) c); [contradiction | ].
      reflexivity.
    + rewrite IH.
      destruct (String.eqb_spec u u') as [E1 | N1];
        destruct (String.eqb_spec c c') as [E2 | N2]; simpl;
        try reflexivity.
      subst u' c'.
      destruct (String.eqb_spec (Limit.userId l) u); [contradiction | ].
      reflexivity.
    + rewrite IH.
      destruct (String.eqb_spec u u') as [E1 | N1];
        destruct (String.eqb_spec c c') as [E2 | N2]; simpl;
        try reflexivity.
      subst u' c'.
      destruct (String.eqb_spec (Limit.userId l) u); [contradiction | ].
      reflexivity.
Qed.

Lemma findOne_limit_update (st : Store) (u c u' c' : string) (z : Z) :
  findOne_limit (findOneAndUpdate st u c z) u' c'
  = if String.eqb u u' && String.eqb c c'
    then Some (Limit.mk u c z)
    else findOne_limit st u' c'.
Proof. unfold findOne_limit, findOneAndUpdate. simpl. apply findOne_upsert. Qed.

Lemma upsert_other_user (ls : list Limit.t) (u c u' : string) (z : Z) :
  u' <> u ->
  filter (fun l => String.eqb (Limit.userId l) u') (upsert ls u c z)
  = filter (fun l => String.eqb (Limit.userId l) u') ls.
Proof.
  intro N. induction ls as [ | l ls IH]; simpl.
  - destruct (String.eqb_spec u u'); [congruence | reflexivity].
  - destruct (String.eqb_spec (Limit.userId l) u) as [Eu | Nu];
      destruct (String.eqb (Limit.category l) c); simpl.
    + destruct (String.eqb_spec u u'); [congruence | ].
      rewrite Eu. destruct (String.eqb_spec u u'); [congruence | ].
      reflexivity.
    + rewrite IH. reflexivity.
    + rewrite IH. reflexivity.
    + rewrite IH. reflexivity.
Qed.

Lemma upsert_keys (ls : list Limit.t) (u c : string) (z : Z) :
  let key := fun l => (Limit.userId l, Limit.category l) in
  map key (upsert ls u c z) = map key ls
  \/ (~ In (u, c) (map key ls)
      /\ map key (upsert ls u c z) = map key ls ++ [(u, c)]).
Proof.
  intro key. induction ls as [ | l ls IH]; simpl.
  - right. split; [intros [] | reflexivity].
  - destruct (String.eqb_spec (Limit.userId l) u) as [Eu | Nu];
      destruct (String.eqb_spec (Limit.category l) c) as [Ec | Nc];
      simpl.
    + left. unfold key at 1 3. simpl. rewrite Eu, Ec. reflexivity.
    + destruct IH as [IH | [Hn IH]].
      * left. rewrite IH. reflexivity.
      * right. split.
        -- intros [E | H]; [ | exact (Hn H)].
           unfold key in E. injection E. intros. contradiction.
        -- rewrite IH. reflexivity.
    + destruct IH as [IH | [Hn IH]].
      * left. rewrite IH. reflexivity.
      * right. split.
        -- intros [E | H]; [ | exact (Hn H)].
           unfold key in E. injection E. intros. contradiction.
        -- rewrite IH. reflexivity.
    + destruct IH as [IH | [Hn IH]].
      * left. rewrite IH. reflexivity.
      * right. split.
        -- intros [E | H]; [ | exact (Hn H)].
           unfold key in E. injection E. intros. contradiction.
        -- rewrite IH. reflexivity.
Qed.

Lemma upsert_unique (ls : list Limit.t) (u c : string) (z : Z) :
  Run.unique_limits ls -> Run.unique_limits (upsert ls u c z).
Proof.
  unfold Run.unique_limits. intro H.
  destruct (upsert_keys ls u c z) as [E | [Hn E]]; rewrite E.
  - exact H.
  - apply NoDup_app.
    + exact H.
    + constructor; [intros [] | constructor].
    + intros a Ha [Eq | []]. subst a. exact (Hn Ha).
Qed.

Lemma upsert_nonneg (ls : list Limit.t) (u c : string) (z : Z) :
  0 <= z ->
  Forall (fun l => 0 <= Limit.limit l) ls ->
  Forall (fun l => 0 <= Limit.limit l) (upsert ls u c z).
Proof.
  intros Hz H. induction H as [ | l ls Hl Hls IH]; simpl.
  - constructor; [exact Hz | constructor].
  - destruct (String.eqb (Limit.userId l) u
              && String.eqb (Limit.category l) c).
    + constructor; [exact Hz | assumption].
    + constructor; assumption.
Qed.

Lemma upsert_twice (ls : list Limit.t) (u c : string) (z1 z2 : Z) :
  upsert (upsert ls u c z1) u c z2 = upsert ls u c z2.
Proof.
  induction ls as [ | l ls IH]; simpl.
  - rewrite !String.eqb_refl. reflexivity.
  - destruct (String.eqb (Limit.userId l) u
              && String.eqb (Limit.category l) c) eqn:E; simpl.
    + rewrite !String.eqb_refl. reflexivity.
    + rewrite E, IH. reflexivity.
Qed.

Section LimitBatches.

Variable StringToNumber : string -> JS.num.

Lemma apply_entry_accepted (st : Store) (u : string) (e : SetLimit.Entry) :
  SetLimit.rejected StringToNumber e = false ->
  exists c z,
    SetLimit.category e = JS.VStr c
    /\ JS.Number StringToNumber (SetLimit.limit e) = JS.Num z
    /\ 0 <= z
    /\ SetLimit.apply_entry StringToNumber st u e
       = findOneAndUpdate st u c z.
Proof.
  intro H. apply accepted_iff in H. destruct H as (c & z & Ec & Ez & Hz).
  exists c, z. unfold SetLimit.apply_entry. rewrite Ec, Ez. auto.
Qed.

(** A property of the store that every update of a cap that is not
    negative keeps is kept by the loop, wherever it stops. *)
Lemma apply_entries_invariant (P : Store -> Prop) (u : string) :
  (forall st c z, 0 <= z -> P st -> P (findOneAndUpdate st u c z)) ->
  forall es st,
    P st -> P (snd (SetLimit.apply_entries StringToNumber st u es)).
Proof.
  intros Hstep es. induction es as [ | e es IH]; intros st Hst; simpl.
  - exact Hst.
  - destruct (SetLimit.rejected StringToNumber e) eqn:R.
    + exact Hst.
    + destruct (apply_entry_accepted st u e R) as (c & z & _ & _ & Hz & E).
      apply IH. rewrite E. apply Hstep; assumption.
Qed.

Lemma set_category_limit_invariant (P : Store -> Prop) (u : string) :
  (forall st c z, 0 <= z -> P st -> P (findOneAndUpdate st u c z)) ->
  forall b st,
    P st -> P (snd (SetLimit.set_category_limit StringToNumber st u b)).
Proof.
  intros Hstep b st Hst. unfold SetLimit.set_category_limit.
  destruct (SetLimit.limits b) as [[ | e es] | ]; try exact Hst.
  apply apply_entries_invariant; assumption.
Qed.

Lemma apply_entries_accepted (es : list SetLimit.Entry) (st : Store)
      (u : string) :
  Forall (fun e => SetLimit.rejected StringToNumber e = false) es ->
  SetLimit.apply_entries StringToNumber st u es
  = (SetLimit.Updated,
     fold_left (fun s e => SetLimit.apply_entry StringToNumber s u e) es st).
Proof.
  intro H. revert st. induction H as [ | e es He Hes IH]; intro st; simpl.
  - reflexivity.
  - rewrite He. apply IH.
Qed.

Lemma fold_findOne (es : list SetLimit.Entry) (u : string) :
  Forall (fun e => SetLimit.rejected StringToNumber e = false) es ->
  forall st c,
    findOne_limit
      (fold_left (fun s e => SetLimit.apply_entry StringToNumber s u e) es st)
      u c
    = match Run.last_cap StringToNumber es c with
      | Some z => Some (Limit.mk u c z)
      | None => findOne_limit st u c
      end.
Proof.
  intro H. induction H as [ | e es He Hes IH]; intros st c; simpl.
  - reflexivity.
  - rewrite IH.
    destruct (Run.last_cap StringToNumber es c) as [z | ]; [reflexivity | ].
    destruct (apply_entry_accepted st u e He) as (ce & ze & Ec & Ez & _ & E).
    rewrite E, Ec, Ez, findOne_limit_update, String.eqb_refl. simpl.
    destruct (String.eqb_spec ce c) as [Eq | _]; [subst ce | ]; reflexivity.
Qed.

Lemma last_cap_of_entry (es : list SetLimit.Entry) (e : SetLimit.Entry)
      (c : string) :
  Forall (fun e => SetLimit.rejected StringToNumber e = false) es ->
  In e es -> SetLimit.category e = JS.VStr c ->
  exists z, Run.last_cap StringToNumber es c = Some z.
Proof.
  intros H Hin Hc. induction H as [ | x es Hx Hes IH]; simpl.
  - destruct Hin.
  - destruct Hin as [E | Hin].
    + subst x.
      destruct (Run.last_cap StringToNumber es c) as [z | ];
        [exists z; reflexivity | ].
      apply accepted_iff in Hx. destruct Hx as (c' & z & Ec & Ez & _).
      rewrite Ec, Ez. rewrite Hc in Ec. injection Ec as Ec. subst c'.
      rewrite String.eqb_refl. exists z. reflexivity.
    + destruct (IH Hin) as (z & Ez). rewrite Ez. exists z. reflexivity.
Qed.

(** X1.  In a batch that is accepted the last entry of a category decides
    its cap: afterwards the limit found for (the caller, a category) is the
    cap of the last entry of that category, and the limit found before
    when the batch has no entry for it; and for every entry of the batch
    the caller's limits list a document of its category with that cap. *)
Theorem batch_last_entry_wins
        (st : Store) (u : string) (es : list SetLimit.Entry) :
  es <> [] ->
  Forall (fun e => SetLimit.rejected StringToNumber e = false) es ->
  let res :=
    SetLimit.set_category_limit StringToNumber st u
                                (SetLimit.mkBody (Some es)) in
  fst res = SetLimit.Updated
  /\ (forall c,
        findOne_limit (snd res) u c
        = match Run.last_cap StringToNumber es c with
          | Some z => Some (Limit.mk u c z)
          | None => findOne_limit st u c
          end)
  /\ (forall e c,
        In e es -> SetLimit.category e = JS.VStr c ->
        exists z,
          Run.last_cap StringToNumber es c = Some z
          /\ In (Limit.mk u c z) (get_category_limits (snd res) u)).
Proof.
  intros Hne Hall res.
  assert (E : res
              = (SetLimit.Updated,
                 fold_left
                   (fun s e => SetLimit.apply_entry StringToNumber s u e)
                   es st)).
  { subst res. unfold SetLimit.set_category_limit. simpl SetLimit.limits.
    destruct es as [ | e es']; [contradiction | ].
    apply apply_entries_accepted. exact Hall. }
  rewrite E. simpl fst. simpl snd.
  split; [reflexivity | split].
  - intro c. apply fold_findOne. exact Hall.
  - intros e c Hin Hc.
    destruct (last_cap_of_entry es e c Hall Hin Hc) as (z & Ez).
    exists z. split; [exact Ez | ].
    pose proof (fold_findOne es u Hall st c) as F. rewrite Ez in F.
    unfold findOne_limit in F. apply find_some in F. destruct F as [F _].
    unfold get_category_limits. apply filter_In. split; [exact F | ].
    simpl. apply String.eqb_refl.
Qed.

(** X2.  Whatever the body and the answer, setting limits as one user
    leaves the limits of every other user as they were, and leaves the
    transactions alone. *)
Theorem other_users_limits_untouched
        (st : Store) (u u' : string) (b : SetLimit.Body) :
  u' <> u ->
  let st' := snd (SetLimit.set_category_limit StringToNumber st u b) in
  get_category_limits st' u' = get_category_limits st u'
  /\ (forall c, findOne_limit st' u' c = findOne_limit st u' c)
  /\ transactions st' = transactions st.
Proof.
  intros N st'. subst st'.
  apply (set_category_limit_invariant
           (fun s => get_category_limits s u' = get_category_limits st u'
                     /\ (forall c, findOne_limit s u' c
                                   = findOne_limit st u' c)
                     /\ transactions s = transactions st)).
  - intros s c z _ (H1 & H2 & H3). split; [ | split].
    + rewrite <- H1. unfold get_category_limits, findOneAndUpdate. simpl.
      apply upsert_other_user. exact N.
    + intro c'. rewrite findOne_limit_update.
      destruct (String.eqb_spec u u') as [E | _]; [congruence | ].
      simpl. apply H2.
    + exact H3.
  - auto.
Qed.

(** X3.  Setting limits never leaves two documents for one (userId,
    category): a collection that has none before has none after, whatever
    the body and the answer. *)
Theorem limits_stay_unique
        (st : Store) (u : string) (b : SetLimit.Body) :
  Run.unique_limits (limits st) ->
  Run.unique_limits
    (limits (snd (SetLimit.set_category_limit StringToNumber st u b))).
Proof.
  intro H.
  apply (set_category_limit_invariant
           (fun s => Run.unique_limits (limits s))); [ | exact H].
  intros s c z _ Hs. unfold findOneAndUpdate. simpl.
  apply upsert_unique. exact Hs.
Qed.

(** X4.  Setting limits never stores a negative cap: where every stored
    cap is at least 0 before the call, every stored cap is at least 0
    after it. *)
Theorem caps_stay_nonnegative
        (st : Store) (u : string) (b : SetLimit.Body) :
  Forall (fun l => 0 <= Limit.limit l) (limits st) ->
  Forall (fun l => 0 <= Limit.limit l)
         (limits (snd (SetLimit.set_category_limit StringToNumber st u b))).
Proof.
  intro H.
  apply (set_category_limit_invariant
           (fun s => Forall (fun l => 0 <= Limit.limit l) (limits s)));
    [ | exact H].
  intros s c z Hz Hs. unfold findOneAndUpdate. simpl.
  apply upsert_nonneg; assumption.
Qed.

(** X5.  Setting the limit of a category twice is the same as setting it
    once to the later cap: the second accepted call leaves the store the
    later call alone would leave. *)
Theorem limit_set_twice
        (st : Store) (u c : string) (cap1 cap2 : JS.value) (z1 z2 : Z) :
  JS.Number StringToNumber cap1 = JS.Num z1 -> 0 <= z1 ->
  JS.Number StringToNumber cap2 = JS.Num z2 -> 0 <= z2 ->
  let set s cap :=
    SetLimit.set_category_limit
      StringToNumber s u
      (SetLimit.mkBody (Some [SetLimit.mkEntry (JS.VStr c) cap])) in
  set (snd (set st cap1)) cap2 = set st cap2
  /\ fst (set st cap2) = SetLimit.Updated.
Proof.
  intros E1 H1 E2 H2 set.
  assert (G : forall s cap z,
             JS.Number StringToNumber cap = JS.Num z -> 0 <= z ->
             set s cap = (SetLimit.Updated, findOneAndUpdate s u c z)).
  { intros s cap z Ez Hz. subst set. cbv beta.
    unfold SetLimit.set_category_limit. simpl.
    unfold SetLimit.rejected, SetLimit.apply_entry. simpl.
    rewrite Ez. simpl.
    destruct (Z.ltb_spec z 0); [lia | reflexivity]. }
  rewrite (G st cap1 z1 E1 H1). simpl snd.
  rewrite (G _ cap2 z2 E2 H2), (G st cap2 z2 E2 H2).
  split; [ | reflexivity].
  unfold findOneAndUpdate. simpl. rewrite upsert_twice. reflexivity.
Qed.


End LimitBatches.

(** ** More on [/check-transaction] *)

Lemma persist_cases (st : Store) (u c r p : string) (a : Z)
      (bypass : option bool) (e : bool) (at_save : Date.t) :
  c <> "" ->
  (u = "" /\ Check.persist st u c a r p bypass e at_save
             = (Check.Status500, st))
  \/ (u <> ""
      /\ Check.persist st u c a r p bypass e at_save
         = (Check.Status200 (e && JS.truthy_bool bypass) r,
            {| transactions :=
                 transactions st
                 ++ [TransactionModel (mkInit u c a p at_save e)];
               limits := limits st |})).
Proof.
  intro Nc. destruct (String.eqb_spec u "") as [E | N].
  - left. split; [exact E | ]. subst u.
    unfold Check.persist, save, validateSync, checkRequired. reflexivity.
  - right. split; [exact N | ]. apply persist_ok; assumption.
Qed.

(** The four ways a call can go. *)
Lemma check_transaction_inv
      (st : Store) (u : string) (b : Check.Body)
      (at_year at_month at_save : Date.t) :
  let res := Check.check_transaction st u b at_year at_month at_save in
  (Check.missing_fields b = true /\ res = (Check.Status400, st))
  \/ exists c a r p,
       Check.category b = Some c /\ c <> ""
       /\ Check.amount b = Some a /\ a <> 0
       /\ Check.redirectUrl b = Some r /\ r <> ""
       /\ Check.payee b = Some p /\ p <> ""
       /\ let prior :=
            Check.totalSpent st u c
              (Check.firstDayOfMonth at_year at_month) in
          ((exists cl,
              findOne_limit st u c = Some cl
              /\ prior + a > Limit.limit cl
              /\ JS.truthy_bool (Check.bypassLimitCheck b) = false
              /\ res = (Check.Status411
                          (Limit.limit cl - prior)
                          (Check.mkDetails
                             (Limit.limit cl) prior (Limit.limit cl - prior)
                             (a - (Limit.limit cl - prior))),
                        st))
           \/ (exists cl,
                 findOne_limit st u c = Some cl
                 /\ prior + a > Limit.limit cl
                 /\ JS.truthy_bool (Check.bypassLimitCheck b) = true
                 /\ res = Check.persist st u c a r p
                            (Check.bypassLimitCheck b) true at_save)
           \/ ((findOne_limit st u c = None
                \/ exists cl, findOne_limit st u c = Some cl
                              /\ prior + a <= Limit.limit cl)
               /\ res = Check.persist st u c a r p
                          (Check.bypassLimitCheck b) false at_save)).
Proof.
  intro res. subst res.
  destruct (Check.missing_fields b) eqn:G.
  - left. unfold Check.check_transaction. rewrite G. auto.
  - right. apply missing_fields_false in G.
    destruct G as (c & a & r & p & Ec & Nc & Ea & Na & Er & Nr & Ep & Np).
    exists c, a, r, p. repeat (split; [assumption | ]).
    intro prior.
    rewrite (check_transaction_valid st u b at_year at_month at_save
               c r p a) by assumption.
    fold prior. unfold Check.decision, Check.limit_check.
    destruct (findOne_limit st u c) as [cl | ].
    + destruct (Z.gtb_spec (prior + a) (Limit.limit cl)) as [L | L].
      * destruct (JS.truthy_bool (Check.bypassLimitCheck b)) eqn:By;
          simpl.
        -- right. left. exists cl. repeat split; try reflexivity. lia.
        -- left. exists cl. repeat split; try reflexivity. lia.
      * right. right. split; [ | reflexivity].
        right. exists cl. split; [reflexivity | lia].
    + right. right. split; [left | ]; reflexivity.
Qed.

(** X7.  A call records a transaction exactly when it answers 200: a 200
    comes with exactly one document appended, any other answer with the
    store as it was; and no call changes a limit. *)
Theorem recorded_iff_200
        (st : Store) (u : string) (b : Check.Body)
        (at_year at_month at_save : Date.t) :
  let res := Check.check_transaction st u b at_year at_month at_save in
  limits (snd res) = limits st
  /\ ((exists despite r, fst res = Check.Status200 despite r)
      <-> exists d, transactions (snd res) = transactions st ++ [d])
  /\ ((forall despite r, fst res <> Check.Status200 despite r)
      -> snd res = st).
Proof.
  intro res.
  destruct (check_transaction_inv st u b at_year at_month at_save)
    as [[_ E] | (c & a & r & p & Ec & Nc & Ea & Na & Er & Nr & Ep & Np & H)];
    fold res in E || fold res in H.
  - rewrite E. simpl. split; [reflexivity | split].
    + split.
      * intros (d & r & H). discriminate H.
      * intros (d & H). symmetry in H. apply app_one_neq in H.
        contradiction.
    + reflexivity.
  - cbv zeta in H.
    assert (P : forall e,
               res = Check.persist st u c a r p
                       (Check.bypassLimitCheck b) e at_save ->
               limits (snd res) = limits st
               /\ ((exists despite r0, fst res = Check.Status200 despite r0)
                   <-> exists d,
                         transactions (snd res) = transactions st ++ [d])
               /\ ((forall despite r0,
                       fst res <> Check.Status200 despite r0)
                   -> snd res = st)).
    { intros e E.
      destruct (persist_cases st u c r p a (Check.bypassLimitCheck b) e
                              at_save Nc) as [[_ Ep'] | [_ Ep']];
        rewrite Ep' in E; rewrite E; simpl.
      - split; [reflexivity | split].
        + split.
          * intros (d & r0 & H0). discriminate H0.
          * intros (d & H0). symmetry in H0. apply app_one_neq in H0.
            contradiction.
        + reflexivity.
      - split; [reflexivity | split].
        + split; intros _; eexists; try eexists; reflexivity.
        + intro H0. exfalso. exact (H0 _ _ eq_refl). }
    destruct H as [(cl & _ & _ & _ & E) | [(cl & _ & _ & _ & E) | [_ E]]].
    + rewrite E. simpl. split; [reflexivity | split].
      * split.
        -- intros (d & r0 & H0). discriminate H0.
        -- intros (d & H0). symmetry in H0. apply app_one_neq in H0.
           contradiction.
      * reflexivity.
    + exact (P _ E).
    + exact (P _ E).
Qed.




Lemma store_app_neq (st : Store) (d : Txn.t) :
  {| transactions := transactions st ++ [d]; limits := limits st |} <> st.
Proof.
  intro H. apply (f_equal transactions) in H. simpl in H.
  exact (app_one_neq _ _ H).
Qed.

Lemma status200_changes_store
      (st : Store) (u : string) (b : Check.Body)
      (at_year at_month at_save : Date.t) (despite : bool) (r : string) :
  fst (Check.check_transaction st u b at_year at_month at_save)
  = Check.Status200 despite r ->
  snd (Check.check_transaction st u b at_year at_month at_save) <> st.
Proof.
  intro H.
  destruct (check_transaction_inv st u b at_year at_month at_save)
    as [[_ E] | (c & a & r0 & p & Ec & Nc & Ea & Na & Er & Nr & Ep & Np & K)].
  - rewrite E in H. discriminate H.
  - cbv zeta in K.
    assert (P : forall e,
               Check.check_transaction st u b at_year at_month at_save
               = Check.persist st u c a r0 p
                   (Check.bypassLimitCheck b) e at_save ->
               snd (Check.check_transaction st u b
                                            at_year at_month at_save)
               <> st).
    { intros e E.
      destruct (persist_cases st u c r0 p a (Check.bypassLimitCheck b) e
                              at_save Nc) as [[_ Ep'] | [_ Ep']];
        rewrite Ep' in E; rewrite E in H |- *; simpl in *.
      - discriminate H.
      - apply store_app_neq. }
    destruct K as [(cl & _ & _ & _ & E) | [(cl & _ & _ & _ & E) | [_ E]]].
    + rewrite E in H. discriminate H.
    + exact (P _ E).
    + exact (P _ E).
Qed.

Lemma spendSince_app (l1 l2 : list Txn.t) (u c : string) (since : Date.t) :
  Spec.spendSince (l1 ++ l2) u c since
  = Spec.spendSince l1 u c since + Spec.spendSince l2 u c since.
Proof.
  induction l1 as [ | d l1 IH]; simpl.
  - reflexivity.
  - rewrite IH. lia.
Qed.

(** X11.  The running total follows what is recorded: after a call that
    answers 200, the month's prior spend of the caller's category has
    grown by exactly the amount (the save not being dated before the
    start of the window, and the amounts counted and the new one being
    within the exact range), and the prior spend of every other user or
    category is as it was. *)
Theorem running_total_grows
        (st : Store) (u : string) (b : Check.Body)
        (at_year at_month at_save : Date.t)
        (despite : bool) (r c : string) (a : Z) (since : Date.t) :
  let res := Check.check_transaction st u b at_year at_month at_save in
  fst res = Check.Status200 despite r ->
  Check.category b = Some c -> Check.amount b = Some a ->
  since <= at_save ->
  exact_range st u c since a 0 ->
  Check.totalSpent (snd res) u c since
  = Check.totalSpent st u c since + a
  /\ (forall u' c',
        u' <> u \/ c' <> c ->
        Check.totalSpent (snd res) u' c' since
        = Check.totalSpent st u' c' since).
Proof.
  intros res H Ec Ea Hs _.
  assert (S : snd res
              = {| transactions :=
                     transactions st
                     ++ [TransactionModel
                           (mkInit u c a
                              (match Check.payee b with
                               | Some p => p
                               | None => ""
                               end)
                              at_save
                              (exceeds st u c a at_year at_month))];
                   limits := limits st |}).
  { destruct (check_transaction_store st u b at_year at_month at_save)
      as [E | (c0 & a0 & p0 & Ec0 & Ea0 & Ep0 & E)]; fold res in E.
    - exfalso.
      exact (status200_changes_store st u b at_year at_month at_save
                                     despite r H E).
    - rewrite E. rewrite Ec in Ec0. rewrite Ea in Ea0.
      injection Ec0 as <-. injection Ea0 as <-. rewrite Ep0. reflexivity. }
  rewrite S. rewrite !totalSpent_spendSince. simpl transactions.
  split.
  - rewrite spendSince_app. simpl.
    rewrite !String.eqb_refl. simpl.
    assert (L : (since <=? at_save) = true) by (apply Z.leb_le; exact Hs).
    rewrite L. lia.
  - intros u' c' N. rewrite !totalSpent_spendSince. simpl transactions.
    rewrite spendSince_app. simpl.
    destruct (String.eqb_spec u u') as [Eu | _];
      destruct (String.eqb_spec c c') as [Ec' | _]; simpl; try lia.
    subst u' c'. destruct N as [N | N]; contradiction.
Qed.

Lemma spendSince_before (txns : list Txn.t) (u c : string) (since : Date.t) :
  (forall d, In d txns -> Txn.userId d = u -> Txn.category d = c ->
             Txn.date d < since) ->
  Spec.spendSince txns u c since = 0.
Proof.
  induction txns as [ | d l IH]; intro H; simpl.
  - reflexivity.
  - rewrite IH by (intros x Hx; apply H; right; exact Hx).
    destruct (String.eqb_spec (Txn.userId d) u) as [Eu | _];
      destruct (String.eqb_spec (Txn.category d) c) as [Ec | _];
      simpl; try reflexivity.
    pose proof (H d (or_introl eq_refl) Eu Ec) as L.
    destruct (Z.leb_spec since (Txn.date d)); [lia | reflexivity].
Qed.

(** X12.  A new month starts from zero: when every transaction on record
    for the caller's category is dated before the first instant of the
    month, the prior spend is 0, and a request of a named user that
    passes the guard with an amount up to the cap is answered 200
    "Transaction successful" and recorded.  The amount and the cap are
    within the exact range. *)
Theorem month_starts_from_zero
        (st : Store) (u c r p : string) (a : Z) (bypass : option bool)
        (others : list (string * JS.value))
        (at_year at_month at_save : Date.t) (cl : Limit.t) :
  (forall d, In d (transactions st) ->
             Txn.userId d = u -> Txn.category d = c ->
             Txn.date d < Check.firstDayOfMonth at_year at_month) ->
  u <> "" -> c <> "" -> a <> 0 -> r <> "" -> p <> "" ->
  findOne_limit st u c = Some cl -> a <= Limit.limit cl ->
  exact_range st u c (Check.firstDayOfMonth at_year at_month) a
              (Limit.limit cl) ->
  Check.totalSpent st u c (Check.firstDayOfMonth at_year at_month) = 0
  /\ exists d,
       Check.check_transaction
         st u (Check.mkBody (Some c) (Some a) (Some r) (Some p) bypass others)
         at_year at_month at_save
       = (Check.Status200 false r,
          {| transactions := transactions st ++ [d];
             limits := limits st |}).
Proof.
  intros Hold Nu Nc Na Nr Np Hcl Hle _.
  assert (Z0 : Check.totalSpent st u c
                 (Check.firstDayOfMonth at_year at_month) = 0).
  { rewrite totalSpent_spendSince. apply spendSince_before. exact Hold. }
  split; [exact Z0 | ].
  rewrite (check_transaction_valid st u _ at_year at_month at_save c r p a);
    try assumption; try reflexivity.
  unfold Check.decision, Check.limit_check. simpl Check.bypassLimitCheck.
  rewrite Hcl, Z0.
  assert (G : (0 + a >? Limit.limit cl) = false).
  { destruct (Z.gtb_spec (0 + a) (Limit.limit cl)); [lia | reflexivity]. }
  rewrite G, persist_ok by assumption. simpl. eexists. reflexivity.
Qed.



(** ** Runs of the handlers *)

Lemma check_transaction_keeps_recorded
      (st : Store) (u : string) (b : Check.Body)
      (at_year at_month at_save : Date.t) :
  Forall Run.recorded (transactions st) ->
  Forall Run.recorded
         (transactions
            (snd (Check.check_transaction st u b at_year at_month at_save))).
Proof.
  intro H.
  destruct (check_transaction_inv st u b at_year at_month at_save)
    as [[_ E] | (c & a & r & p & Ec & Nc & Ea & Na & Er & Nr & Ep & Np & K)].
  - rewrite E. exact H.
  - cbv zeta in K.
    assert (P : forall e,
               Check.check_transaction st u b at_year at_month at_save
               = Check.persist st u c a r p
                   (Check.bypassLimitCheck b) e at_save ->
               Forall Run.recorded
                      (transactions
                         (snd (Check.check_transaction
                                 st u b at_year at_month at_save)))).
    { intros e E.
      destruct (persist_cases st u c r p a (Check.bypassLimitCheck b) e
                              at_save Nc) as [[_ Ep'] | [Nu Ep']];
        rewrite Ep' in E; rewrite E; simpl.
      - exact H.
      - apply Forall_app. split; [exact H | ].
        constructor; [ | constructor].
        unfold Run.recorded. simpl. auto. }
    destruct K as [(cl & _ & _ & _ & E) | [(cl & _ & _ & _ & E) | [_ E]]].
    + rewrite E. exact H.
    + exact (P _ E).
    + exact (P _ E).
Qed.


Lemma find_none_all {A : Type} (f : A -> bool) (l : list A) :
  (forall x, In x l -> f x = false) -> find f l = None.
Proof.
  induction l as [ | x l IH]; intro H; simpl.
  - reflexivity.
  - rewrite (H x (or_introl eq_refl)). apply IH.
    intros y Hy. apply H. right. exact Hy.
Qed.

Section RunFacts.

Variable StringToNumber : string -> JS.num.

Lemma run_keeps
      (P : Store -> Prop) :
  (forall st u b ty tm ts,
      P st -> P (snd (Check.check_transaction st u b ty tm ts))) ->
  (forall st u b,
      P st ->
      P (snd (SetLimit.set_category_limit StringToNumber st u b))) ->
  forall rs st, P st -> P (Run.run StringToNumber st rs).
Proof.
  intros Hc Hs rs. unfold Run.run.
  induction rs as [ | r rs IH]; intros st Hst; simpl.
  - exact Hst.
  - apply IH. destruct r as [u b ty tm ts | u b]; simpl.
    + apply Hc. exact Hst.
    + apply Hs. exact Hst.
Qed.

Lemma run_keeps_recorded (st : Store) (rs : list Run.Request) :
  Forall Run.recorded (transactions st) ->
  Forall Run.recorded (transactions (Run.run StringToNumber st rs)).
Proof.
  apply (run_keeps (fun s => Forall Run.recorded (transactions s))).
  - intros s u b ty tm ts. apply check_transaction_keeps_recorded.
  - intros s u b H.
    apply (set_category_limit_invariant
             StringToNumber
             (fun x => Forall Run.recorded (transactions x))); [ | exact H].
    intros x c z _ Hx. exact Hx.
Qed.


(** X16.  No category is ever inferred from what the handlers record: on
    the store any run of the writing handlers leaves, starting with no
    transaction, the inference answers 200 with [null] for every user and
    every non-empty payee. *)
Theorem inference_on_runs_is_null
        (ls : list Limit.t) (rs : list Run.Request) (u p : string) :
  p <> "" ->
  forall createdAt : Txn.t -> option Date.t,
    Infer.get_category createdAt
                       (Run.run StringToNumber (mkStore [] ls) rs) u
                       (Infer.mkBody (Some p))
    = Infer.Status200 JS.VNull.
Proof.
  intros Np createdAt.
  assert (R : Forall Run.recorded
                     (transactions
                        (Run.run StringToNumber (mkStore [] ls) rs))).
  { apply run_keeps_recorded. constructor. }
  unfold Infer.get_category. simpl Infer.payee.
  rewrite (truthy_str_Some p Np). simpl negb.
  assert (N : forall d,
             In d (transactions (Run.run StringToNumber (mkStore [] ls) rs))
             -> Infer.has_payee p d = false).
  { intros d Hd. rewrite Forall_forall in R.
    destruct (R d Hd) as (_ & _ & _ & Hp & _).
    unfold Infer.has_payee. rewrite Hp. reflexivity. }
  rewrite (findOne_sorted_none_match createdAt _
             (Infer.has_payee_user p u)).
  - rewrite (findOne_sorted_none_match createdAt _ (Infer.has_payee p))
      by exact N.
    reflexivity.
  - intros d Hd. unfold Infer.has_payee_user. rewrite (N d Hd). reflexivity.
Qed.

End RunFacts.

(** ** More on [/get-category] *)

Lemma filter_andb {A : Type} (f g : A -> bool) (l : list A) :
  filter (fun x => f x && g x) l = filter f (filter g l).
Proof.
  induction l as [ | x l IH]; simpl.
  - reflexivity.
  - destruct (g x); simpl.
    + rewrite andb_true_r. destruct (f x); [rewrite IH | ]; auto.
    + rewrite andb_false_r. exact IH.
Qed.

(** X17.  The caller's own history comes first: when the caller has a
    transaction that carries the payee, the answer depends on the
    caller's transactions alone; two stores that hold the same
    transactions of the caller, in the same order, give the same answer
    whatever the other users have on record, and whatever [createdAt] the
    documents carry. *)
Theorem own_history_decides
        (createdAt : Txn.t -> option Date.t)
        (st1 st2 : Store) (u p : string) :
  p <> "" ->
  filter (fun d => String.eqb (Txn.userId d) u) (transactions st1)
  = filter (fun d => String.eqb (Txn.userId d) u) (transactions st2) ->
  (exists d, In d (transactions st1)
             /\ Txn.payee d = Some p /\ Txn.userId d = u) ->
  Infer.get_category createdAt st1 u (Infer.mkBody (Some p))
  = Infer.get_category createdAt st2 u (Infer.mkBody (Some p)).
Proof.
  intros Np E (d & Hin & Hp & Hu).
  unfold Infer.get_category. simpl Infer.payee.
  rewrite (truthy_str_Some p Np). simpl negb.
  assert (F : Infer.findOne_sorted createdAt st2
                                   (Infer.has_payee_user p u)
              = Infer.findOne_sorted createdAt st1
                                     (Infer.has_payee_user p u)).
  { unfold Infer.findOne_sorted, Infer.has_payee_user.
    rewrite !(filter_andb (Infer.has_payee p)
                          (fun d => String.eqb (Txn.userId d) u)).
    rewrite E. reflexivity. }
  rewrite F.
  destruct (Infer.findOne_sorted createdAt st1
                                 (Infer.has_payee_user p u))
    as [x | ] eqn:G.
  - reflexivity.
  - exfalso.
    pose proof (findOne_sorted_None createdAt st1 _ G d Hin) as K.
    assert (T : Infer.has_payee_user p u d = true)
      by (apply has_payee_user_iff; auto).
    congruence.
Qed.

(** ** [/get-analytics] *)









Lemma newDate_day0 (y m : Z) :
  Analytics.newDate y m 0 + Date.msPerDay = Analytics.newDate y m 1.
Proof.
  unfold Analytics.newDate, Date.make.
  generalize (Date.days_from_civil (Analytics.fullYear y + m / 12)
                                   (m mod 12 + 1) 1).
  intro D. unfold Date.msPerDay. lia.
Qed.

(** X19.  The analytics of a month leave its last day out: the upper end
    of the window is the first instant of the last day (one day before
    the next month starts), so a transaction dated later on that day, or
    at any later time, changes nothing in the answer. *)
Theorem analytics_leave_out_last_day
        (st : Store) (u : string) (q : Analytics.Query)
        (at_month at_year : Date.t) (d : Txn.t) :
  let m := match Analytics.month q with
           | Some m => m
           | None => Date.getMonth at_month
           end in
  let y := match Analytics.year q with
           | Some y => y
           | None => Date.getFullYear at_year
           end in
  Analytics.newDate y (m + 1) 1 - Date.msPerDay < Txn.date d ->
  Analytics.get_analytics
    {| transactions := transactions st ++ [d]; limits := limits st |}
    u q at_month at_year
  = Analytics.get_analytics st u q at_month at_year.
Proof.
  intros m y H. unfold Analytics.get_analytics.
  fold m. fold y.
  assert (W : Analytics.find_window
                {| transactions := transactions st ++ [d];
                   limits := limits st |}
                u (Analytics.newDate y m 1)
                (Analytics.newDate y (m + 1) 0)
              = Analytics.find_window st u (Analytics.newDate y m 1)
                                      (Analytics.newDate y (m + 1) 0)).
  { unfold Analytics.find_window. simpl transactions.
    rewrite filter_app. simpl.
    pose proof (newDate_day0 y (m + 1)) as L.
    destruct (Z.leb_spec (Txn.date d) (Analytics.newDate y (m + 1) 0));
      [lia | ].
    rewrite andb_false_r. apply app_nil_r. }
  rewrite W. reflexivity.
Qed.




(** ** The earlier handlers *)

Lemma earlier_total_app (st : Store) (u c : string) (now : Date.t)
      (d : Txn.t) :
  Earlier.lastDayOfMonth now < Txn.date d ->
  Earlier.totalSpent
    {| transactions := transactions st ++ [d]; limits := limits st |}
    u c now
  = Earlier.totalSpent st u c now.
Proof.
  intro H. unfold Earlier.totalSpent, Earlier.find_between.
  simpl transactions. rewrite filter_app. simpl.
  destruct (Z.leb_spec (Txn.date d) (Earlier.lastDayOfMonth now)); [lia | ].
  rewrite andb_false_r, app_nil_r. reflexivity.
Qed.

(** X21.  The earlier handler bounds its window by the first instant of
    the month's last day: a transaction dated after it, be it earlier on
    the very day of the request, is not counted, and the answer to a
    request is the same with or without it on record. *)
Theorem earlier_window_misses_last_day
        (st : Store) (u : string) (b : EarlierCheck.Body)
        (now at_save : Date.t) (d : Txn.t) :
  Earlier.lastDayOfMonth now < Txn.date d ->
  (forall c,
      Earlier.totalSpent
        {| transactions := transactions st ++ [d]; limits := limits st |}
        u c now
      = Earlier.totalSpent st u c now)
  /\ fst (EarlierCheck.check_transaction
            {| transactions := transactions st ++ [d]; limits := limits st |}
            u b now at_save)
     = fst (EarlierCheck.check_transaction st u b now at_save).
Proof.
  intro H. split.
  - intro c. apply earlier_total_app. exact H.
  - unfold EarlierCheck.check_transaction.
    destruct (negb (JS.truthy_str (EarlierCheck.category b))
              || negb (JS.truthy_num (EarlierCheck.amount b))
              || negb (JS.truthy_str (EarlierCheck.redirectUrl b)));
      [reflexivity | ].
    destruct (EarlierCheck.category b) as [c | ]; [ | reflexivity].
    destruct (EarlierCheck.amount b) as [a | ]; [ | reflexivity].
    destruct (EarlierCheck.redirectUrl b) as [r | ]; [ | reflexivity].
    rewrite (earlier_total_app st u c now d H).
    unfold findOne_limit, save. simpl limits.
    destruct (find _ (limits st)) as [cl | ].
    + destruct (Earlier.totalSpent st u c now + a >? Limit.limit cl);
        [reflexivity | ].
      destruct (validateSync _); reflexivity.
    + destruct (validateSync _); reflexivity.
Qed.


Lemma find_set_existing (ls : list Limit.t) (u c : string) (z : Z)
      (l : Limit.t) :
  find (fun x => String.eqb (Limit.userId x) u
                 && String.eqb (Limit.category x) c) ls = Some l ->
  find (fun x => String.eqb (Limit.userId x) u
                 && String.eqb (Limit.category x) c)
       (EarlierLimit.set_existing ls u c z)
  = Some (Limit.mk u c z).
Proof.
  induction ls as [ | x ls IH]; simpl; intro H.
  - discriminate H.
  - destruct (String.eqb_spec (Limit.userId x) u) as [Eu | Nu];
      destruct (String.eqb_spec (Limit.category x) c) as [Ec | Nc];
      simpl in *.
    + rewrite Eu, Ec, !String.eqb_refl. reflexivity.
    + destruct (String.eqb_spec (Limit.userId x) u); [ | contradiction].
      destruct (String.eqb_spec (Limit.category x) c); [contradiction | ].
      simpl. exact (IH H).
    + destruct (String.eqb_spec (Limit.userId x) u); [contradiction | ].
      simpl. exact (IH H).
    + destruct (String.eqb_spec (Limit.userId x) u); [contradiction | ].
      simpl. exact (IH H).
Qed.

Lemma find_append_new (ls : list Limit.t) (u c : string) (z : Z) :
  find (fun x => String.eqb (Limit.userId x) u
                 && String.eqb (Limit.category x) c) ls = None ->
  find (fun x => String.eqb (Limit.userId x) u
                 && String.eqb (Limit.category x) c)
       (ls ++ [Limit.mk u c z])
  = Some (Limit.mk u c z).
Proof.
  induction ls as [ | x ls IH]; simpl; intro H.
  - rewrite !String.eqb_refl. reflexivity.
  - destruct (String.eqb (Limit.userId x) u
              && String.eqb (Limit.category x) c).
    + discriminate H.
    + exact (IH H).
Qed.

(** X23.  The earlier limit handler takes any number but 0 as a cap, a
    negative one included: for a named user, a non-empty category and a
    limit other than 0 it answers 200 when the category had a limit and
    201 when it had none, the limit found afterwards is the one given, and
    the transactions are untouched; with the limit 0 it answers 400 and
    changes nothing. *)
Theorem earlier_limit_round_trip
        (st : Store) (u c : string) (z : Z) :
  u <> "" -> c <> "" ->
  let res :=
    EarlierLimit.set_category_limit
      st u (EarlierLimit.mkBody (Some c) (Some z)) in
  (z <> 0 ->
   fst res = (match findOne_limit st u c with
              | Some _ => EarlierLimit.Status200
              | None => EarlierLimit.Status201
              end)
   /\ findOne_limit (snd res) u c = Some (Limit.mk u c z)
   /\ transactions (snd res) = transactions st)
  /\ (z = 0 -> res = (EarlierLimit.Status400, st)).
Proof.
  intros Nu Nc res. subst res. unfold EarlierLimit.set_category_limit.
  simpl EarlierLimit.category. simpl EarlierLimit.limit.
  rewrite (truthy_str_Some c Nc). split.
  - intro Nz. rewrite (truthy_num_Some z Nz). simpl.
    destruct (findOne_limit st u c) as [l | ] eqn:F.
    + assert (K : Limit.userId l = u /\ Limit.category l = c).
      { unfold findOne_limit in F. apply find_some in F.
        destruct F as [_ F]. apply andb_true_iff in F.
        rewrite !String.eqb_eq in F. exact F. }
      destruct K as [Ku Kc]. rewrite Ku, Kc.
      unfold EarlierLimit.validateSync, checkRequired. simpl.
      rewrite (eqb_empty_false u Nu), (eqb_empty_false c Nc). simpl.
      split; [reflexivity | split; [ | reflexivity]].
      unfold findOne_limit. simpl.
      exact (find_set_existing (limits st) u c z l F).
    + unfold EarlierLimit.validateSync, checkRequired. simpl.
      rewrite (eqb_empty_false u Nu), (eqb_empty_false c Nc). simpl.
      split; [reflexivity | split; [ | reflexivity]].
      unfold findOne_limit. simpl.
      exact (find_append_new (limits st) u c z F).
  - intro Ez. subst z. reflexivity.
Qed.

(** ** Accounts and tokens *)

Lemma split_from_spaceless (cur s : string) :
  spaceless s = true ->
  Auth.split_from cur s = [String.append cur s].
Proof.
  revert cur. induction s as [ | c s IH]; intros cur H; simpl in *.
  - replace (String.append cur "") with cur; [reflexivity | ].
    induction cur as [ | x cur IHc]; simpl; [reflexivity | ].
    rewrite <- IHc. reflexivity.
  - apply andb_true_iff in H. destruct H as [Hc Hs].
    apply negb_true_iff in Hc. rewrite Hc. rewrite (IH _ Hs).
    f_equal. clear. induction cur as [ | x cur IHc]; simpl.
    + reflexivity.
    + rewrite IHc. reflexivity.
Qed.

Lemma split_from_app (cur s t : string) :
  spaceless s = true ->
  Auth.split_from cur (String.append s (String " "%char t))
  = String.append cur s :: Auth.split_from "" t.
Proof.
  revert cur. induction s as [ | c s IH]; intros cur H; simpl in *.
  - f_equal. induction cur as [ | x cur IHc]; simpl; [reflexivity | ].
    rewrite <- IHc. reflexivity.
  - apply andb_true_iff in H. destruct H as [Hc Hs].
    apply negb_true_iff in Hc. rewrite Hc. rewrite (IH _ Hs).
    f_equal. clear. induction cur as [ | x cur IHc]; simpl.
    + reflexivity.
    + rewrite IHc. reflexivity.
Qed.

Lemma append_space_nonempty (s t : string) :
  String.eqb (String.append s (String " "%char t)) "" = false.
Proof. destruct s; reflexivity. Qed.

Section AuthFacts.

Variable hash : string -> nat -> string.
Variable compare : string -> string -> bool.
Variable sign : string -> string -> Date.t -> option string.
Variable verify : string -> Date.t -> option string.

(** X24.  [authenticate] reads the second of the pieces of the header
    between spaces and never looks at the first: for a header "scheme
    token" the request goes on as the user the token verifies for, or is
    answered 400 when it does not verify, whatever the scheme; a header
    without a space, and one with two spaces after the scheme, are
    answered 401. *)
Theorem authenticate_ignores_scheme
        (scheme token : string) (now : Date.t) :
  spaceless scheme = true -> spaceless token = true ->
  (token <> "" ->
   Auth.authenticate
     verify (Some (String.append scheme (String " "%char token))) now
   = match verify token now with
     | Some id => Auth.Next id
     | None => Auth.InvalidToken
     end)
  /\ (token <> "" ->
      Auth.authenticate verify (Some token) now = Auth.BadFormat)
  /\ Auth.authenticate
       verify
       (Some (String.append scheme
                            (String " "%char (String " "%char token))))
       now
     = Auth.BadFormat.
Proof.
  intros Hs Ht. unfold Auth.authenticate, Auth.split.
  split; [ | split].
  - intro Nt. rewrite append_space_nonempty.
    rewrite (split_from_app "" scheme token Hs).
    rewrite (split_from_spaceless "" token Ht). simpl.
    rewrite (eqb_empty_false token Nt). reflexivity.
  - intro Nt. rewrite (eqb_empty_false token Nt).
    rewrite (split_from_spaceless "" token Ht). reflexivity.
  - rewrite append_space_nonempty.
    rewrite (split_from_app "" scheme (String " "%char token) Hs).
    reflexivity.
Qed.

Lemma findOne_none_notin (users : list Auth.User) (id : string) :
  Auth.findOne users id = None -> ~ In id (map Auth.userId users).
Proof.
  unfold Auth.findOne. intros F H. apply in_map_iff in H.
  destruct H as (x & Ex & Hx).
  pose proof (find_none _ _ F x Hx) as K. simpl in K.
  rewrite Ex, String.eqb_refl in K. discriminate K.
Qed.

Lemma findOne_app_new (users : list Auth.User) (x : Auth.User) :
  Auth.findOne users (Auth.userId x) = None ->
  Auth.findOne (users ++ [x]) (Auth.userId x) = Some x.
Proof.
  unfold Auth.findOne. induction users as [ | y users IH]; simpl; intro H.
  - rewrite String.eqb_refl. reflexivity.
  - destruct (String.eqb (Auth.userId y) (Auth.userId x)).
    + discriminate H.
    + exact (IH H).
Qed.

(** What [signup] leaves: the collection as it was, or with the new user
    appended. *)
Lemma signup_users (users : list Auth.User) (id pwd : string) (salt : nat)
      (now : Date.t) :
  let users' := snd (Auth.signup hash sign users id pwd salt now) in
  users' = users
  \/ (Auth.findOne users id = None /\ id <> "" /\ hash pwd salt <> ""
      /\ users' = users ++ [Auth.mkUser id (hash pwd salt) 400]).
Proof.
  intro users'. subst users'. unfold Auth.signup.
  destruct (Auth.findOne users id) as [x | ] eqn:F; [left; reflexivity | ].
  unfold Auth.validateSync, checkRequired. simpl.
  destruct (String.eqb_spec id "") as [E | N]; simpl;
    [left; reflexivity | ].
  destruct (String.eqb_spec (hash pwd salt) "") as [E' | N']; simpl;
    [left; reflexivity | ].
  right. repeat split; try assumption.
  destruct (sign id "3d" now); reflexivity.
Qed.

(** X25.  [signup] keeps the users collection well formed: where no two
    users share a [userId] and every user has a non-empty [userId] and a
    non-empty stored password before the call, the same holds after it,
    whatever the body and the answer. *)
Theorem signup_keeps_users_well_formed
        (users : list Auth.User) (id pwd : string) (salt : nat)
        (now : Date.t) :
  NoDup (map Auth.userId users) ->
  Forall (fun x => Auth.userId x <> "" /\ Auth.password x <> "") users ->
  let users' := snd (Auth.signup hash sign users id pwd salt now) in
  NoDup (map Auth.userId users')
  /\ Forall (fun x => Auth.userId x <> "" /\ Auth.password x <> "") users'.
Proof.
  intros Hd Hf users'.
  destruct (signup_users users id pwd salt now)
    as [E | (F & Nid & Nh & E)]; fold users' in E; rewrite E.
  - auto.
  - split.
    + rewrite map_app. simpl. apply NoDup_app.
      * exact Hd.
      * constructor; [intros [] | constructor].
      * intros a Ha [Ea | []]. subst a.
        exact (findOne_none_notin users id F Ha).
    + apply Forall_app. split; [exact Hf | ].
      constructor; [ | constructor]. simpl. auto.
Qed.

(** X26.  An account that [signup] creates can sign in.  For a [userId]
    that is new and not empty, and a hash that is not empty and that
    [compare] accepts for the password: the user is on record after the
    call even when signing the token throws and the answer is 500; a
    later [signin] with the password is answered 200 with the token
    signed then, one with a password [compare] rejects is answered 400,
    and a second [signup] of the [userId] is answered 400 and adds
    nothing. *)
Theorem signup_then_signin
        (users : list Auth.User) (id pwd : string) (salt : nat)
        (now : Date.t) :
  Auth.findOne users id = None -> id <> "" -> hash pwd salt <> "" ->
  compare pwd (hash pwd salt) = true ->
  let res := Auth.signup hash sign users id pwd salt now in
  fst res = (match sign id "3d" now with
             | Some token => Auth.Status201 token
             | None => Auth.Status500
             end)
  /\ snd res = users ++ [Auth.mkUser id (hash pwd salt) 400]
  /\ (forall now',
        Auth.signin compare sign (snd res) id pwd now'
        = match sign id "3d" now' with
          | Some token => Auth.Status200 token
          | None => Auth.Status500
          end)
  /\ (forall pwd' now',
        compare pwd' (hash pwd salt) = false ->
        Auth.signin compare sign (snd res) id pwd' now' = Auth.Status400)
  /\ (forall pwd' salt' now',
        Auth.signup hash sign (snd res) id pwd' salt' now'
        = (Auth.Status400, snd res)).
Proof.
  intros F Nid Nh Hc res.
  assert (E : res
              = (match sign id "3d" now with
                 | Some token => Auth.Status201 token
                 | None => Auth.Status500
                 end,
                 users ++ [Auth.mkUser id (hash pwd salt) 400])).
  { subst res. unfold Auth.signup. rewrite F.
    unfold Auth.validateSync, checkRequired. simpl.
    rewrite (eqb_empty_false id Nid), (eqb_empty_false _ Nh). simpl.
    destruct (sign id "3d" now); reflexivity. }
  rewrite E. simpl fst. simpl snd.
  pose proof (findOne_app_new users (Auth.mkUser id (hash pwd salt) 400) F)
    as G. simpl in G.
  split; [reflexivity | split; [reflexivity | split; [ | split]]].
  - intro now'. unfold Auth.signin. rewrite G. simpl. rewrite Hc.
    reflexivity.
  - intros pwd' now' Hc'. unfold Auth.signin. rewrite G. simpl.
    rewrite Hc'. reflexivity.
  - intros pwd' salt' now'. unfold Auth.signup. rewrite G. reflexivity.
Qed.

(** X27.  A token is only issued for a user on record: [signup] answers
    201 only after it has stored the user, whose [userId] is then not
    empty, and [signin] answers 200 only for a stored user whose stored
    password [compare] accepts. *)
Theorem token_only_for_stored_user
        (users : list Auth.User) (id pwd : string) (salt : nat)
        (now : Date.t) (token : string) :
  (fst (Auth.signup hash sign users id pwd salt now) = Auth.Status201 token
   -> id <> ""
      /\ Auth.findOne
           (snd (Auth.signup hash sign users id pwd salt now)) id
         = Some (Auth.mkUser id (hash pwd salt) 400)
      /\ sign id "3d" now = Some token)
  /\ (Auth.signin compare sign users id pwd now = Auth.Status200 token
      -> exists x,
           In x users /\ Auth.userId x = id
           /\ compare pwd (Auth.password x) = true
           /\ sign id "3d" now = Some token).
Proof.
  split.
  - unfold Auth.signup.
    destruct (Auth.findOne users id) as [x | ] eqn:F;
      [intro H; discriminate H | ].
    unfold Auth.validateSync, checkRequired. simpl.
    destruct (String.eqb_spec id "") as [E | N]; simpl;
      [intro H; discriminate H | ].
    destruct (String.eqb_spec (hash pwd salt) "") as [E' | N']; simpl;
      [intro H; discriminate H | ].
    destruct (sign id "3d" now) as [t | ]; simpl;
      [ | intro H; discriminate H].
    intro H. injection H as <-.
    split; [exact N | split; [ | reflexivity]].
    exact (findOne_app_new users (Auth.mkUser id (hash pwd salt) 400) F).
  - unfold Auth.signin.
    destruct (Auth.findOne users id) as [x | ] eqn:F;
      [ | intro H; discriminate H].
    destruct (compare pwd (Auth.password x)) eqn:C;
      [ | intro H; discriminate H].
    destruct (sign id "3d" now) as [t | ]; [ | intro H; discriminate H].
    intro H. injection H as <-.
    unfold Auth.findOne in F. apply find_some in F.
    destruct F as [Hin Hid]. apply String.eqb_eq in Hid.
    exists x. auto.
Qed.

(** X28.  No refresh token is ever accepted: the set the handler consults
    is created empty and nothing adds to it, so every request, with or
    without a token, valid or not, is answered 403. *)
Theorem refresh_token_always_refused
        (refreshToken : option string) (now : Date.t) :
  Auth.refresh_token sign verify refreshToken now = Auth.Status403.
Proof.
  unfold Auth.refresh_token, Auth.refreshTokens.
  destruct refreshToken as [t | ]; [ | reflexivity].
  simpl. rewrite orb_true_r. reflexivity.
Qed.

End AuthFacts.

(** ** Worked instances *)

Lemma batch_last_entry_wins_witness :
  fst (SetLimit.set_category_limit
         JS.decimal scenario "u1"
         (SetLimit.mkBody
            (Some [SetLimit.mkEntry (JS.VStr "Fuel") (JS.VStr "80");
                   SetLimit.mkEntry (JS.VStr "Fuel") (JS.VNum 90)])))
  = SetLimit.Updated.
Proof.
  refine (proj1 (batch_last_entry_wins
                   JS.decimal scenario "u1"
                   [SetLimit.mkEntry (JS.VStr "Fuel") (JS.VStr "80");
                    SetLimit.mkEntry (JS.VStr "Fuel") (JS.VNum 90)] _ _)).
  - discriminate.
  - repeat constructor.
Defined.

Lemma other_users_limits_untouched_witness :
  get_category_limits
    (snd (SetLimit.set_category_limit
            JS.decimal scenario "u2"
            (SetLimit.mkBody
               (Some [SetLimit.mkEntry (JS.VStr "Food") (JS.VNum 9)]))))
    "u1"
  = get_category_limits scenario "u1".
Proof.
  refine (proj1 (other_users_limits_untouched
                   JS.decimal scenario "u2" "u1" _ _)).
  discriminate.
Defined.

Lemma limits_stay_unique_witness :
  Run.unique_limits
    (limits
       (snd (SetLimit.set_category_limit
               JS.decimal scenario "u1"
               (SetLimit.mkBody
                  (Some [SetLimit.mkEntry (JS.VStr "Food") (JS.VNum 9)]))))).
Proof.
  refine (limits_stay_unique JS.decimal scenario "u1" _ _).
  constructor; [exact (fun H => H) | constructor].
Defined.

Lemma caps_stay_nonnegative_witness :
  Forall (fun l => 0 <= Limit.limit l)
         (limits
            (snd (SetLimit.set_category_limit
                    JS.decimal scenario "u1"
                    (SetLimit.mkBody
                       (Some [SetLimit.mkEntry (JS.VStr "Food")
                                               (JS.VNum 9)]))))).
Proof.
  refine (caps_stay_nonnegative JS.decimal scenario "u1" _ _).
  constructor; [vm_compute; discriminate | constructor].
Defined.

Lemma limit_set_twice_witness :
  fst (SetLimit.set_category_limit
         JS.decimal scenario "u1"
         (SetLimit.mkBody
            (Some [SetLimit.mkEntry (JS.VStr "Fuel") (JS.VNum 90)])))
  = SetLimit.Updated.
Proof.
  refine (proj2 (limit_set_twice JS.decimal scenario "u1" "Fuel"
                                 (JS.VStr "80") (JS.VNum 90) 80 90
                                 _ _ _ _)).
  - reflexivity.
  - discriminate.
  - reflexivity.
  - discriminate.
Defined.




Lemma running_total_grows_witness :
  Check.totalSpent
    (snd (Check.check_transaction scenario "u1" (request 300 None)
                                  march15 march15 march15))
    "u1" "Food" (Check.firstDayOfMonth march15 march15)
  = Check.totalSpent scenario "u1" "Food"
                     (Check.firstDayOfMonth march15 march15)
    + 300.
Proof.
  refine (proj1 (running_total_grows
                   scenario "u1" (request 300 None)
                   march15 march15 march15
                   false "/done" "Food" 300
                   (Check.firstDayOfMonth march15 march15)
                   _ _ _ _ _)).
  - vm_compute. reflexivity.
  - reflexivity.
  - reflexivity.
  - vm_compute. discriminate.
  - vm_compute. discriminate.
Defined.

Lemma month_starts_from_zero_witness :
  Check.totalSpent scenario "u1" "Food"
                   (Check.firstDayOfMonth april10 april10)
  = 0.
Proof.
  refine (proj1 (month_starts_from_zero
                   scenario "u1" "Food" "/done" "Amazon" 300 None []
                   april10 april10 april10 (Limit.mk "u1" "Food" 500)
                   _ _ _ _ _ _ _ _ _)).
  - intros d [<- | []] _ _. vm_compute. reflexivity.
  - discriminate.
  - discriminate.
  - discriminate.
  - discriminate.
  - discriminate.
  - reflexivity.
  - vm_compute. discriminate.
  - vm_compute. discriminate.
Defined.




Lemma inference_on_runs_is_null_witness :
  Infer.get_category
    (fun _ => None)
    (Run.run JS.decimal (mkStore [] [])
             [Run.CheckTransaction
                "u2"
                (Check.mkBody (Some "Shopping") (Some 40) (Some "/done")
                              (Some "Amazon") None [])
                march5 march5 march5])
    "u1" (Infer.mkBody (Some "Amazon"))
  = Infer.Status200 JS.VNull.
Proof.
  refine (inference_on_runs_is_null
            JS.decimal [] _ "u1" "Amazon" _ (fun _ => None)).
  discriminate.
Defined.

Lemma own_history_decides_witness :
  Infer.get_category
    (fun d => Some (Txn.date d))
    {| transactions :=
         [Txn.mk "u1" 10 "Books" march5 (Some "Amazon") None];
       limits := [] |}
    "u1" (Infer.mkBody (Some "Amazon"))
  = Infer.get_category
      (fun d => Some (Txn.date d))
      {| transactions :=
           [Txn.mk "u2" 20 "Shopping" march15 (Some "Amazon") None;
            Txn.mk "u1" 10 "Books" march5 (Some "Amazon") None];
         limits := [] |}
      "u1" (Infer.mkBody (Some "Amazon")).
Proof.
  refine (own_history_decides (fun d => Some (Txn.date d)) _ _
                              "u1" "Amazon" _ _ _).
  - discriminate.
  - reflexivity.
  - eexists. split; [left; reflexivity | split; reflexivity].
Defined.


Lemma analytics_leave_out_last_day_witness :
  Analytics.get_analytics
    {| transactions :=
         transactions scenario
         ++ [Txn.mk "u1" 70 "Food" (Date.make 2025 2 31 + 12 * 3600000)
                    None None];
       limits := limits scenario |}
    "u1" (Analytics.mkQuery (Some 2) (Some 2025)) march15 march15
  = Analytics.get_analytics
      scenario "u1" (Analytics.mkQuery (Some 2) (Some 2025))
      march15 march15.
Proof.
  refine (analytics_leave_out_last_day
            scenario "u1" (Analytics.mkQuery (Some 2) (Some 2025))
            march15 march15
            (Txn.mk "u1" 70 "Food" (Date.make 2025 2 31 + 12 * 3600000)
                    None None) _).
  vm_compute. reflexivity.
Defined.


Lemma earlier_window_misses_last_day_witness :
  fst (EarlierCheck.check_transaction
         {| transactions :=
              transactions scenario
              ++ [Txn.mk "u1" 70 "Food"
                         (Date.make 2025 2 31 + 12 * 3600000) None None];
            limits := limits scenario |}
         "u1" (EarlierCheck.mkBody (Some "Food") (Some 300) (Some "/done"))
         march15 march15)
  = fst (EarlierCheck.check_transaction
           scenario "u1"
           (EarlierCheck.mkBody (Some "Food") (Some 300) (Some "/done"))
           march15 march15).
Proof.
  refine (proj2 (earlier_window_misses_last_day
                   scenario "u1"
                   (EarlierCheck.mkBody (Some "Food") (Some 300)
                                        (Some "/done"))
                   march15 march15
                   (Txn.mk "u1" 70 "Food"
                           (Date.make 2025 2 31 + 12 * 3600000) None None)
                   _)).
  vm_compute. reflexivity.
Defined.


Lemma earlier_limit_round_trip_witness :
  EarlierLimit.set_category_limit
    scenario "u1" (EarlierLimit.mkBody (Some "Food") (Some 0))
  = (EarlierLimit.Status400, scenario).
Proof.
  refine (proj2 (earlier_limit_round_trip scenario "u1" "Food" 0 _ _) _).
  - discriminate.
  - discriminate.
  - reflexivity.
Defined.

Lemma authenticate_ignores_scheme_witness :
  Auth.authenticate (fun token _ => Some token) (Some "Basic abc") 0
  = Auth.Next "abc".
Proof.
  refine (proj1 (authenticate_ignores_scheme
                   (fun token _ => Some token) "Basic" "abc" 0 _ _) _).
  - reflexivity.
  - reflexivity.
  - discriminate.
Defined.

Lemma signup_keeps_users_well_formed_witness :
  NoDup
    (map Auth.userId
         (snd (Auth.signup (fun pwd _ => String.append "h:" pwd)
                           (fun id _ _ => Some id)
                           [] "ann" "secret" 0%nat 0))).
Proof.
  refine (proj1 (signup_keeps_users_well_formed
                   (fun pwd _ => String.append "h:" pwd)
                   (fun id _ _ => Some id)
                   [] "ann" "secret" 0%nat 0 _ _)).
  - constructor.
  - constructor.
Defined.

Lemma signup_then_signin_witness :
  snd (Auth.signup (fun pwd _ => String.append "h:" pwd)
                   (fun id _ _ => Some id)
                   [] "ann" "secret" 0%nat 0)
  = [] ++ [Auth.mkUser "ann" "h:secret" 400].
Proof.
  refine (proj1 (proj2 (signup_then_signin
                          (fun pwd _ => String.append "h:" pwd)
                          (fun pwd hashed =>
                             String.eqb hashed (String.append "h:" pwd))
                          (fun id _ _ => Some id)
                          [] "ann" "secret" 0%nat 0 _ _ _ _))).
  - reflexivity.
  - discriminate.
  - discriminate.
  - reflexivity.
Defined.

Lemma inferred_category_witness :
  exists d,
    In d [Txn.mk "u1" 10 "Books" march5 (Some "Amazon") None;
          Txn.mk "u1" 20 "Shopping" march15 (Some "Amazon") None]
    /\ Txn.payee d = Some "Amazon" /\ Txn.userId d = "u1"
    /\ Infer.get_category
         (fun d => Some (Txn.date d))
         {| transactions :=
              [Txn.mk "u1" 10 "Books" march5 (Some "Amazon") None;
               Txn.mk "u1" 20 "Shopping" march15 (Some "Amazon") None];
            limits := [] |}
         "u1" (Infer.mkBody (Some "Amazon"))
       = Infer.Status200 (JS.VStr (Txn.category d)).
Proof.
  refine (proj1 (inferred_category
                   (fun d => Some (Txn.date d))
                   {| transactions :=
                        [Txn.mk "u1" 10 "Books" march5 (Some "Amazon") None;
                         Txn.mk "u1" 20 "Shopping" march15 (Some "Amazon")
                                None];
                      limits := [] |}
                   "u1" "Amazon" _) _).
  - discriminate.
  - eexists. split; [left; reflexivity | split; reflexivity].
Defined.
